(** * corepoint-ingest: board-export extraction and report aggregation

    A shallow embedding of [src/app.py]: the field parsers ([DATE_PAT],
    [PRICE_PAT], [parse_date]), the card extractor ([extract_cards]),
    the aggregator ([build_report]) and the Flask routes around them.
    Text is modelled as [string] over ASCII characters; the document is
    the tree BeautifulSoup builds from the input bytes. *)

From Stdlib Require Import Bool Arith ZArith QArith Qabs String Ascii List Lia.
Import ListNotations.

Open Scope bool_scope.
Open Scope string_scope.
Open Scope nat_scope.

(** ** Characters *)

Definition code (c : ascii) : nat := nat_of_ascii c.

(** [str.isspace] on ASCII: \t \n \v \f \r, \x1c..\x1f and space.  This
    is both what [str.strip] removes and what the regex class [\s] matches. *)
Definition is_space (c : ascii) : bool :=
  ((9 <=? code c) && (code c <=? 13)) || ((28 <=? code c) && (code c <=? 32)).

(** [\d] *)
Definition is_digit (c : ascii) : bool :=
  (48 <=? code c) && (code c <=? 57).

Definition in_range (lo hi c : ascii) : bool :=
  (code lo <=? code c) && (code c <=? code hi).

Definition lower (c : ascii) : ascii :=
  if (65 <=? code c) && (code c <=? 90) then ascii_of_nat (code c + 32) else c.

(** [str.lower] *)
Fixpoint str_lower (s : string) : string :=
  match s with
  | EmptyString => EmptyString
  | String c s' => String (lower c) (str_lower s')
  end.

Fixpoint drop (k : nat) (s : string) : string :=
  match k, s with
  | 0, _ => s
  | S k', String _ s' => drop k' s'
  | S _, EmptyString => EmptyString
  end.

(** ** Regular expressions: Python [re] semantics for the two patterns

    The patterns of [app.py] are sequences of single-character classes
    with greedy bounded or unbounded repetition, and one capture group.
    A greedy repetition takes as many characters as it can and gives them
    back one at a time on backtracking, as [sre] does. *)
Inductive atom :=
  | Cls (f : ascii -> bool) (lo : nat) (hi : option nat)
  | GOpen
  | GClose.

(** A literal under [re.IGNORECASE]. *)
Definition lit_ci (c : ascii) : atom :=
  Cls (fun x => Ascii.eqb (lower x) (lower c)) 1 (Some 1).

Fixpoint lits_ci (s : string) : list atom :=
  match s with
  | EmptyString => []
  | String c s' => lit_ci c :: lits_ci s'
  end.

(** Length of the longest prefix of [s] in the class, capped at [hi]. *)
Fixpoint run_len (f : ascii -> bool) (hi : option nat) (s : string) : nat :=
  match s with
  | EmptyString => 0
  | String c s' =>
      match hi with
      | Some 0 => 0
      | Some (S h) => if f c then S (run_len f (Some h) s') else 0
      | None => if f c then S (run_len f None s') else 0
      end
  end.

(** Backtracking over a greedy repetition: [m] is the rest of the
    pattern, tried after [k] characters of [s], then after [k-1], ... down
    to the minimum [lo]. *)
Fixpoint try_len (m : string -> option string) (s : string) (lo k : nat) : option string :=
  match m (drop k s) with
  | Some g => Some g
  | None =>
      match k with
      | 0 => None
      | S k' => if k' <? lo then None else try_len m s lo k'
      end
  end.

(** [re_match p s opened grp]: match [p] at the start of [s]; [opened] is
    the input where the group was opened, [grp] the text captured so far.
    Returns group 1 of the first match in backtracking order. *)
Fixpoint re_match (p : list atom) (s opened grp : string) : option string :=
  match p with
  | [] => Some grp
  | GOpen :: p' => re_match p' s s grp
  | GClose :: p' =>
      re_match p' s opened
        (substring 0 (String.length opened - String.length s) opened)
  | Cls f lo hi :: p' =>
      let n := run_len f hi s in
      if n <? lo then None
      else try_len (fun s' => re_match p' s' opened grp) s lo n
  end.

(** [pattern.search(s).group(1)], or [None] when there is no match:
    start positions are tried left to right, the empty suffix included. *)
Fixpoint re_search (p : list atom) (s : string) : option string :=
  match re_match p s s EmptyString with
  | Some g => Some g
  | None =>
      match s with
      | EmptyString => None
      | String _ s' => re_search p s'
      end
  end.

(** [DATE_PAT = re.compile(r"Received[:\s]+(\d{1,2}/\d{1,2}/\d{2,4})", re.IGNORECASE)] *)
Definition DATE_PAT : list atom :=
  lits_ci "Received" ++
  [ Cls (fun c => Ascii.eqb c ":" || is_space c) 1 None;
    GOpen;
    Cls is_digit 1 (Some 2); lit_ci "/";
    Cls is_digit 1 (Some 2); lit_ci "/";
    Cls is_digit 2 (Some 4);
    GClose ].

(** [PRICE_PAT = re.compile(r"Quoted Price\s*[$:]*\s*([\d,]+)", re.IGNORECASE)] *)
Definition PRICE_PAT : list atom :=
  lits_ci "Quoted Price" ++
  [ Cls is_space 0 None;
    Cls (fun c => Ascii.eqb c "$" || Ascii.eqb c ":") 0 None;
    Cls is_space 0 None;
    GOpen;
    Cls (fun c => is_digit c || Ascii.eqb c ",") 1 None;
    GClose ].

(** ** Dates: [datetime.date] and [datetime.strptime] *)

Record date := mkdate { year : Z; month : Z; day : Z }.

Definition is_leap (y : Z) : bool :=
  (Z.eqb (y mod 4) 0 && negb (Z.eqb (y mod 100) 0)) || Z.eqb (y mod 400) 0.

Definition days_in_month (y m : Z) : Z :=
  if Z.eqb m 2 then (if is_leap y then 29 else 28)
  else if Z.eqb m 4 || Z.eqb m 6 || Z.eqb m 9 || Z.eqb m 11 then 30
  else 31.

(** The checks of [date.__new__]: [MINYEAR <= year <= MAXYEAR],
    [1 <= month <= 12], [1 <= day <= days_in_month]. *)
Definition date_valid (d : date) : bool :=
  Z.leb 1 (year d) && Z.leb (year d) 9999 &&
  Z.leb 1 (month d) && Z.leb (month d) 12 &&
  Z.leb 1 (day d) && Z.leb (day d) (days_in_month (year d) (month d)).

(** [_days_before_year], [_days_before_month], [date.toordinal]. *)
Definition days_before_year (y : Z) : Z :=
  let y' := (y - 1)%Z in (y' * 365 + y' / 4 - y' / 100 + y' / 400)%Z.

Definition DAYS_BEFORE_MONTH : list Z :=
  [-1; 0; 31; 59; 90; 120; 151; 181; 212; 243; 273; 304; 334]%Z.

Definition days_before_month (y m : Z) : Z :=
  (nth (Z.to_nat m) DAYS_BEFORE_MONTH 0 +
   (if Z.ltb 2 m && is_leap y then 1 else 0))%Z.

Definition toordinal (d : date) : Z :=
  (days_before_year (year d) + days_before_month (year d) (month d) + day d)%Z.

(** [(a - b).days] for two dates. *)
Definition days_between (a b : date) : Z := (toordinal a - toordinal b)%Z.

(** Value of a string of decimal digits (other characters ignored, as
    [int] ignores the leading blank of the [" [1-9]"] branch of [%d]). *)
Fixpoint digits_acc (acc : Z) (s : string) : Z :=
  match s with
  | EmptyString => acc
  | String c s' =>
      if is_digit c then digits_acc (acc * 10 + Z.of_nat (code c - 48))%Z s'
      else digits_acc acc s'
  end.

Definition digits_value (s : string) : Z := digits_acc 0 s.

(** The directives of the three formats of [parse_date]. *)
Inductive directive := Dm | Dd | Dy | DY | DLit (c : ascii).

(** One alternative of a directive's regex in [_strptime.TimeRE]: a fixed
    sequence of character classes. *)
Definition branch := list (ascii -> bool).

Fixpoint match_branch (b : branch) (s : string) : option (string * string) :=
  match b with
  | [] => Some (EmptyString, s)
  | f :: b' =>
      match s with
      | String c s' =>
          if f c then
            match match_branch b' s' with
            | Some (m, r) => Some (String c m, r)
            | None => None
            end
          else None
      | EmptyString => None
      end
  end.

Definition is_char (c : ascii) : ascii -> bool := fun x => Ascii.eqb x c.

(** [TimeRE]: ['m': r"(?P<m>1[0-2]|0[1-9]|[1-9])"],
    ['d': r"(?P<d>3[01]|[12]\d|0[1-9]|[1-9]| [1-9])"],
    ['y': r"(?P<y>\d\d)"], ['Y': r"(?P<Y>\d\d\d\d)"]; other format
    characters are literals (the format regex is compiled with
    [re.IGNORECASE]). *)
Definition directive_branches (d : directive) : list branch :=
  match d with
  | Dm => [ [is_char "1"; in_range "0" "2"];
            [is_char "0"; in_range "1" "9"];
            [in_range "1" "9"] ]
  | Dd => [ [is_char "3"; in_range "0" "1"];
            [in_range "1" "2"; is_digit];
            [is_char "0"; in_range "1" "9"];
            [in_range "1" "9"];
            [is_char " "; in_range "1" "9"] ]
  | Dy => [ [is_digit; is_digit] ]
  | DY => [ [is_digit; is_digit; is_digit; is_digit] ]
  | DLit c => [ [fun x => Ascii.eqb (lower x) (lower c)] ]
  end.

Fixpoint first_some {A : Type} (l : list (option A)) : option A :=
  match l with
  | [] => None
  | Some a :: _ => Some a
  | None :: l' => first_some l'
  end.

(** [format_regex.match(data_string)]: the first match in backtracking
    order, with the text each directive captured and the unmatched rest. *)
Fixpoint strp_match (fmt : list directive) (s : string)
  : option (list (directive * string) * string) :=
  match fmt with
  | [] => Some ([], s)
  | d :: fmt' =>
      first_some
        (map (fun b =>
                match match_branch b s with
                | Some (m, r) =>
                    match strp_match fmt' r with
                    | Some (fs, r') => Some ((d, m) :: fs, r')
                    | None => None
                    end
                | None => None
                end)
             (directive_branches d))
  end.

(** The loop of [_strptime] over the captured groups; the defaults are
    year 1900, month 1, day 1. *)
Definition apply_field (acc : date) (f : directive * string) : date :=
  let '(d, m) := f in
  let v := digits_value m in
  match d with
  | Dy => mkdate (if Z.leb v 68 then v + 2000 else v + 1900)%Z (month acc) (day acc)
  | DY => mkdate v (month acc) (day acc)
  | Dm => mkdate (year acc) v (day acc)
  | Dd => mkdate (year acc) (month acc) v
  | DLit _ => acc
  end.

(** [datetime.strptime(s, fmt).date()]; [None] where it raises
    [ValueError] (no match, unconverted data remains, or an invalid date). *)
Definition strptime (fmt : list directive) (s : string) : option date :=
  match strp_match fmt s with
  | None => None
  | Some (fs, rest) =>
      match rest with
      | String _ _ => None
      | EmptyString =>
          let d := fold_left apply_field fs (mkdate 1900 1 1) in
          if date_valid d then Some d else None
      end
  end.

Definition FMT_mdy : list directive := [Dm; DLit "/"; Dd; DLit "/"; Dy].
Definition FMT_mdY : list directive := [Dm; DLit "/"; Dd; DLit "/"; DY].
Definition FMT_Ymd : list directive := [DY; DLit "-"; Dm; DLit "-"; Dd].

(** [parse_date]: the three formats in order, exceptions swallowed. *)
Definition parse_date (s : string) : option date :=
  first_some [strptime FMT_mdy s; strptime FMT_mdY s; strptime FMT_Ymd s].


(** ** Exceptions

    The exceptions that can escape the code below: the [ValueError] of
    [int] on the captured price text (and of [seek] on a closed buffer),
    the [IndexError] of a subscript, the [OverflowError] of an [int] that
    does not fit a [float], and the [ParserRejectedMarkup] BeautifulSoup
    raises when [html.parser] gives up on the markup. *)
Inductive py_exn := ValueError | IndexError | OverflowError | ParserRejectedMarkup.

Inductive res (A : Type) : Type :=
  | Ok (a : A)
  | Raise (e : py_exn).
Arguments Ok {A} a.
Arguments Raise {A} e.

Definition res_bind {A B : Type} (m : res A) (k : A -> res B) : res B :=
  match m with
  | Ok a => k a
  | Raise e => Raise e
  end.

Notation "x <- m ;; k" := (res_bind m (fun x => k))
  (at level 61, m at next level, right associativity).

(** ** [str] methods and [int] *)

Fixpoint lstrip (s : string) : string :=
  match s with
  | String c s' => if is_space c then lstrip s' else s
  | EmptyString => EmptyString
  end.

Fixpoint rstrip (s : string) : string :=
  match s with
  | EmptyString => EmptyString
  | String c s' =>
      let r := rstrip s' in
      match r with
      | EmptyString => if is_space c then EmptyString else String c EmptyString
      | _ => String c r
      end
  end.

(** [str.strip()] *)
Definition strip (s : string) : string := rstrip (lstrip s).

(** [s.replace(",", "")] *)
Fixpoint remove_commas (s : string) : string :=
  match s with
  | EmptyString => EmptyString
  | String c s' =>
      if Ascii.eqb c "," then remove_commas s' else String c (remove_commas s')
  end.

(** The digits of a decimal [int] literal: digits, each [_] between two
    digits; [need] is set when a digit must come next. *)
Fixpoint int_body_ok (need : bool) (s : string) : bool :=
  match s with
  | EmptyString => negb need
  | String c s' =>
      if is_digit c then int_body_ok false s'
      else if Ascii.eqb c "_" && negb need then int_body_ok true s'
      else false
  end.

(** The number of digits of an [int] literal (its [_] left out). *)
Fixpoint count_digits (s : string) : nat :=
  match s with
  | EmptyString => 0
  | String c s' => (if is_digit c then 1 else 0) + count_digits s'
  end.

(** [sys.get_int_max_str_digits()] at its default: [int] refuses a
    decimal string with more digits than this. *)
Definition INT_MAX_STR_DIGITS : nat := 4300.

(** [int(s)] for a [str] in base 10: surrounding whitespace stripped, an
    optional sign, then the digits, at most [INT_MAX_STR_DIGITS] of them;
    anything else raises [ValueError]. *)
Definition py_int (s : string) : res Z :=
  let t := strip s in
  let '(sign, body) :=
    match t with
    | String c b =>
        if Ascii.eqb c "-" then ((-1)%Z, b)
        else if Ascii.eqb c "+" then (1%Z, b)
        else (1%Z, t)
    | EmptyString => (1%Z, t)
    end in
  if int_body_ok true body then
    if Nat.leb (count_digits body) INT_MAX_STR_DIGITS then Ok (sign * digits_value body)%Z
    else Raise ValueError
  else Raise ValueError.

(** ** The document tree

    The tree [BeautifulSoup(html_bytes, "html.parser")] builds: elements
    with their tag name and their [class] tokens (an absent attribute is
    the empty list), and text nodes. *)
Set Warnings "-register-all".
Inductive node :=
  | Elem (tag : string) (classes : list string) (children : list node)
  | Txt (s : string).

(** [tag.descendants]: document order, the node itself excluded. *)
Fixpoint descendants (n : node) : list node :=
  match n with
  | Txt _ => []
  | Elem _ _ ch =>
      (fix go (l : list node) : list node :=
         match l with
         | [] => []
         | c :: l' => c :: (descendants c ++ go l')%list
         end) ch
  end.

(** [tag.get_text(" ", strip=True)]: the text nodes below the tag,
    each stripped, empty ones dropped, joined with one blank. *)
Definition get_text (n : node) : string :=
  String.concat " "
    (filter (fun s => negb (String.eqb s ""))
       (map strip
          (flat_map (fun d => match d with Txt s => [s] | Elem _ _ _ => [] end)
             (descendants n)))).

(** [lambda c: c and c.startswith(P)] *)
Definition startswith_pred (P : string) (c : string) : bool :=
  negb (String.eqb c "") && String.prefix P c.

(** How BeautifulSoup applies a function to the multi-valued [class]
    attribute: to each token, then to the tokens joined by blanks. *)
Definition class_matches (pred : string -> bool) (classes : list string) : bool :=
  existsb pred classes || pred (String.concat " " classes).

Definition is_div (n : node) : bool :=
  match n with Elem t _ _ => String.eqb t "div" | Txt _ => false end.

Definition node_classes (n : node) : list string :=
  match n with Elem _ cl _ => cl | Txt _ => [] end.

(** [n.find_all("div", class_=pred)] *)
Definition find_all_div_class (pred : string -> bool) (n : node) : list node :=
  filter (fun d => is_div d && class_matches pred (node_classes d)) (descendants n).

(** [n.find("div", class_=pred)] *)
Definition find_div_class (pred : string -> bool) (n : node) : option node :=
  hd_error (find_all_div_class pred n).

(** [n.select("div.card")] *)
Definition select_div_card (n : node) : list node :=
  filter (fun d => is_div d && existsb (String.eqb "card") (node_classes d)) (descendants n).

(** [n.find_all("div", recursive=True)] *)
Definition find_all_divs (n : node) : list node :=
  filter is_div (descendants n).

(** ** The card extractor *)

(** The dict built per card: [{column, text, date, age, price}]. *)
Record card := mkcard {
  column : string;
  text : string;
  card_date : date;
  age : Z;
  price : option Z
}.

(** The body of the inner loop of [extract_cards] for one candidate:
    [Ok None] is a [continue], [Ok (Some c)] an [out.append(c)]. *)
Definition card_step (column : string) (today : date) (cnode : node) : res (option card) :=
  let text := get_text cnode in
  if String.eqb text "" then Ok None else
  match re_search DATE_PAT text with
  | None => Ok None
  | Some g =>
      match parse_date g with
      | None => Ok None
      | Some d =>
          let age := days_between today d in
          match re_search PRICE_PAT text with
          | None => Ok (Some (mkcard column text d age None))
          | Some pg =>
              p <- py_int (remove_commas pg) ;;
              Ok (Some (mkcard column text d age (Some p)))
          end
      end
  end.

Definition option_list {A : Type} (o : option A) : list A :=
  match o with Some a => [a] | None => [] end.

(** [for card in cards: ...] *)
Fixpoint cards_loop (column : string) (today : date) (cs : list node) : res (list card) :=
  match cs with
  | [] => Ok []
  | c :: cs' =>
      o <- card_step column today c ;;
      rest <- cards_loop column today cs' ;;
      Ok (option_list o ++ rest)%list
  end.

Definition is_outer_wrapper : string -> bool := startswith_pred "_outerWrapper_".
Definition is_header_name : string -> bool := startswith_pred "_headerName_".

(** [outer.select("div.card") or outer.find_all("div", recursive=True)] *)
Definition card_candidates (outer : node) : list node :=
  match select_div_card outer with
  | [] => find_all_divs outer
  | sel => sel
  end.

(** The body of the outer loop of [extract_cards] for one column container. *)
Definition column_step (today : date) (outer : node) : res (list card) :=
  match find_div_class is_header_name outer with
  | None => Ok []
  | Some header =>
      let column := get_text header in
      cards_loop column today (card_candidates outer)
  end.

Fixpoint outers_loop (today : date) (os : list node) : res (list card) :=
  match os with
  | [] => Ok []
  | o :: os' =>
      cs <- column_step today o ;;
      rest <- outers_loop today os' ;;
      Ok (cs ++ rest)%list
  end.

(** [extract_cards] on the parsed document, with [today] the UTC date the
    clock returned. *)
Definition extract_from_soup (soup : node) (today : date) : res (list card) :=
  outers_loop today (find_all_div_class is_outer_wrapper soup).

(** The clock value [datetime.now(timezone.utc)]: a UTC calendar day and
    the time within it. *)
Record instant := mkinstant { utc_date : date; utc_seconds : Z }.

Section Extract.

(** [BeautifulSoup(html_bytes, "html.parser")]: the library's parser,
    which returns the tree or raises (on markup [html.parser] gives up on,
    BeautifulSoup raises [ParserRejectedMarkup]). *)
Variable html_parser : list Byte.byte -> res node.

(** [extract_cards(html_bytes)], run when the clock reads [now]. *)
Definition extract_cards (html_bytes : list Byte.byte) (now : instant) : res (list card) :=
  soup <- html_parser html_bytes ;;
  let today := utc_date now in
  extract_from_soup soup today.

End Extract.

(** ** The aggregator *)

(** The configuration constants of [app.py]. *)
Definition EXCLUDED_COLUMNS_FOR_AGE : list string :=
  ["Completed"; "Canceled"; "New Parts Request"].

Definition REQUESTED_LANES : list string :=
  ["Receipt Confirmed <7 days"; "Aging >7 Days"; "Stale >14 Days";
   "Assigned to Department"; "Parts Ordered"; "Arrived/In-Hand";
   "Contacted"; "Customer Unreachable"; "Scheduled"].

Definition FOCUSED_LABELS : list string :=
  ["Demand Repair"; "Install"; "Dispatch";
   "NOT COOLING/HEATING"; "Warranty"; "Comfort Shield Warranty"].

Definition ALL_LABELS : list string :=
  ["Backordered"; "Warranty"; "Escalation"; "Prepaid Service"; "COSTCO ESCALATION";
   "Demand Repair"; "1st Year Warranty"; "Install"; "Comfort Shield Warranty"; "Recall";
   "Schedule Return Visit"; "Electrical"; "Duct Cleaning"; "Senior Tech Callback";
   "Commercial"; "Possible Payment Issue"; "Replacement Opp"; "Manager Visit"; "Damage Claim";
   "NOT COOLING/HEATING"; "Multiple Systems"; "Missing Quote"; "READY TO SCHEDULE";
   "Missing Parts"; "URGENT"; "Dispatch"; "ISR - Service"; "Aging Card";
   "In Service Recovery - Stale"; "Call Customer"; "Check Warranty"; "Plumbing";
   "Truck Stock"; "Multiple Parts Request"].

(** [x in S] for a set of strings. *)
Definition mem (x : string) (l : list string) : bool := existsb (String.eqb x) l.

(** [needle in hay] for strings. *)
Fixpoint contains (needle hay : string) : bool :=
  String.prefix needle hay ||
  match hay with
  | EmptyString => false
  | String _ hay' => contains needle hay'
  end.

Definition sum_Z (xs : list Z) : Z := fold_right Z.add 0%Z xs.

(** [statistics.mean(xs)] as the exact rational [sum(xs)/len(xs)]. *)
Definition mean (xs : list Z) : Q :=
  (inject_Z (sum_Z xs) / inject_Z (Z.of_nat (List.length xs)))%Q.

Record scope_row := mkscope { sr_scope : string; sr_count : nat; sr_avg : Q }.
Record lane_row := mklane { lr_lane : string; lr_count : nat; lr_avg : Q }.
Record label_row := mklabel { lb_label : string; lb_count : nat; lb_avg : Q }.

(** The single row of [quoted_stats]. *)
Record quoted_row := mkquoted {
  total_value_count : nat; total_value : Z; average_value : Q;
  total_won_count : nat; total_won : Z; average_won : Q;
  total_lost_count : nat; total_lost : Z; average_lost : Q
}.

(** The four tables handed to the workbook writer. *)
Record report := mkreport {
  scope_rows : list scope_row;
  lane_rows : list lane_row;
  quoted_stats : list quoted_row;
  all_label_rows : list label_row
}.

Section Report.

(** [round(x, 2)] applied to [statistics.mean] of a list of [int]s: the
    exact mean converted to [float] (left as it is when integral) and
    rounded to two decimals by Python's [round]. *)
Variable round_mean2 : Q -> Q.

(** [avg(xs)]: [round(statistics.mean(xs), 2) if xs else 0.0] *)
Definition avg (xs : list Z) : Q :=
  match xs with
  | [] => 0%Q
  | _ => round_mean2 (mean xs)
  end.

(** [avg(xs) if xs else 0] *)
Definition avg_or_0 (xs : list Z) : Q :=
  match xs with
  | [] => 0%Q
  | _ => avg xs
  end.

Definition is_active (c : card) : bool := negb (mem (column c) EXCLUDED_COLUMNS_FOR_AGE).

Definition has_label (lbl : string) (c : card) : bool :=
  contains (str_lower lbl) (str_lower (text c)).

(** [[c["price"] for c in cs if keep(c) and c["price"] is not None]] *)
Definition prices_where (keep : card -> bool) (cs : list card) : list Z :=
  flat_map (fun c => if keep c then option_list (price c) else []) cs.

(** [sum(xs) if xs else 0] *)
Definition sum_or_0 (xs : list Z) : Z :=
  match xs with
  | [] => 0%Z
  | _ => sum_Z xs
  end.

Definition is_won (c : card) : bool := String.eqb (column c) "Completed".
Definition is_lost (c : card) : bool := String.eqb (column c) "Canceled".

Definition build_report (cards : list card) : report :=
  let active := filter is_active cards in
  let scope0 :=
    mkscope "All cards (excluding Completed/Canceled)"
      (List.length active) (avg (map age active)) in
  let focused :=
    map (fun lbl =>
           let ages := map age (filter (has_label lbl) active) in
           mkscope lbl (List.length ages) (avg_or_0 ages))
        FOCUSED_LABELS in
  let lanes :=
    flat_map (fun lane =>
                let ages := map age (filter (fun c => String.eqb (column c) lane) cards) in
                match ages with
                | [] => []
                | _ => [mklane lane (List.length ages) (avg ages)]
                end)
             REQUESTED_LANES in
  let active_prices := prices_where (fun _ => true) active in
  let completed_prices := prices_where is_won cards in
  let canceled_prices := prices_where is_lost cards in
  let quoted :=
    mkquoted
      (List.length active_prices) (sum_or_0 active_prices) (avg_or_0 active_prices)
      (List.length completed_prices) (sum_or_0 completed_prices) (avg_or_0 completed_prices)
      (List.length canceled_prices) (sum_or_0 canceled_prices) (avg_or_0 canceled_prices) in
  let labels :=
    match ALL_LABELS with
    | [] => []
    | _ =>
        map (fun lbl =>
               let ages := map age (filter (has_label lbl) active) in
               mklabel lbl (List.length ages) (avg_or_0 ages))
            ALL_LABELS
    end in
  mkreport (scope0 :: focused) lanes [quoted] labels.

End Report.

(** ** Where the aggregator overflows

    [statistics.mean] of [int]s computes the exact mean; a non-integral
    one is converted to [float] by [int / int], which raises
    [OverflowError] when the correctly rounded quotient does not fit. The
    [int]s written to the workbook (the sums, and an integral mean) go
    through [math.isnan] in [xlsxwriter], which raises [OverflowError] on
    the same range. A [float] holds a magnitude below [2^1024 - 2^970]
    (half-way between the largest double and [2^1024]; a tie rounds to
    even, that is up). The counts are list lengths and never reach it. *)
Definition FLOAT_OVERFLOW_BOUND : Z := (2 ^ 1024 - 2 ^ 970)%Z.

Definition float_overflows_Z (z : Z) : bool := Z.leb FLOAT_OVERFLOW_BOUND (Z.abs z).

Definition float_overflows_Q (x : Q) : bool :=
  Qle_bool (inject_Z FLOAT_OVERFLOW_BOUND) (Qabs x).

(** [avg(xs)] raises exactly when [xs] is non-empty and its mean is out
    of range (in [statistics.mean] or, integral, in the writer). *)
Definition mean_overflows (xs : list Z) : bool :=
  match xs with
  | [] => false
  | _ => float_overflows_Q (mean xs)
  end.

(** [build_report(cards)] raises [OverflowError] exactly when one of the
    averages it computes, or one of the price sums it writes, is out of
    range. *)
Definition report_overflows (cards : list card) : bool :=
  let active := filter is_active cards in
  let label_ages := map (fun lbl => map age (filter (has_label lbl) active)) in
  let age_lists :=
    (map age active :: label_ages FOCUSED_LABELS ++
     map (fun lane => map age (filter (fun c => String.eqb (column c) lane) cards))
         REQUESTED_LANES ++
     label_ages ALL_LABELS)%list in
  let price_lists :=
    [prices_where (fun _ => true) active; prices_where is_won cards;
     prices_where is_lost cards] in
  existsb mean_overflows (age_lists ++ price_lists)%list ||
  existsb (fun xs => float_overflows_Z (sum_or_0 xs)) price_lists.

Section Pipeline.

Variable html_parser : list Byte.byte -> res node.
Variable round_mean2 : Q -> Q.

(** The core of the [/analyze] handler: [build_report(extract_cards(html))],
    its tables or the exception it raises. *)
Definition analyze (html : list Byte.byte) (now : instant) : res report :=
  cards <- extract_cards html_parser html now ;;
  if report_overflows cards then Raise OverflowError
  else Ok (build_report round_mean2 cards).

End Pipeline.

(** ** The web layer

    The three Flask routes of [app.py] over the module-level
    [_last_workbook]: [GET /] ([index]), [POST /analyze] ([analyze]) and
    [GET /download] ([download]). *)

(** The [file] field of a multipart upload: a werkzeug [FileStorage]. *)
Record upload := mkupload { filename : string; file_bytes : list Byte.byte }.

(** [request.files.get("file")] and the test [if not file]: a
    [FileStorage] is true exactly when its filename is non-empty. *)
Definition upload_truthy (file : option upload) : option upload :=
  match file with
  | Some u => if String.eqb (filename u) "" then None else Some u
  | None => None
  end.

(** The content of one sheet written by [DataFrame.to_excel]. *)
Inductive sheet_data :=
  | SheetScope (rows : list scope_row)
  | SheetLane (rows : list lane_row)
  | SheetQuoted (rows : list quoted_row)
  | SheetLabels (rows : list label_row).

(** The workbook as its sheets in the order they are written. *)
Definition workbook := list (string * sheet_data).

(** The [pd.ExcelWriter] block of [build_report]. *)
Definition write_workbook (r : report) : workbook :=
  ([("Scope", SheetScope (scope_rows r));
    ("Lane", SheetLane (lane_rows r));
    ("Quoted Prices", SheetQuoted (quoted_stats r))] ++
   match all_label_rows r with
   | [] => []
   | rows => [("All Labels", SheetLabels rows)]
   end)%list.

(** [summary = {"scope": ..., "lanes": ..., "quoted": quoted_stats[0]}] *)
Record summary := mksummary {
  sm_scope : list scope_row; sm_lanes : list lane_row; sm_quoted : quoted_row }.

(** [build_report]'s return value [(output, summary)], or what it raises:
    [OverflowError] from an average or a written number out of range,
    [IndexError] where [quoted_stats[0]] fails. *)
Definition build_report_outputs (round_mean2 : Q -> Q) (cards : list card)
  : res (workbook * summary) :=
  if report_overflows cards then Raise OverflowError else
  let r := build_report round_mean2 cards in
  match quoted_stats r with
  | q :: _ => Ok (write_workbook r, mksummary (scope_rows r) (lane_rows r) q)
  | [] => Raise IndexError
  end.

(** The [io.BytesIO] [_last_workbook] refers to: the workbook it holds
    and whether it has been closed. [send_file] hands the buffer to the
    response, which closes it once it has been sent. *)
Record buffer := mkbuffer { contents : workbook; closed : bool }.

(** [render_template_string(INDEX_TMPL)] and
    [render_template_string(RESULT_TMPL, **summary)]. *)
Inductive page := IndexPage | ResultPage (s : summary).

(** What a route returns: a rendered page (status 200), a [(text, status)]
    pair, a [send_file] response, or the 500 Flask answers when the view
    raises. *)
Inductive response :=
  | PageResp (p : page)
  | TextResp (body : string) (status : nat)
  | FileResp (wb : workbook) (mimetype : string) (as_attachment : bool) (download_name : string)
  | ServerError.

(** A request with what the view reads besides [_last_workbook]: the
    upload and the UTC clock for [/analyze] (through [extract_cards]), the
    local date of [datetime.now()] for [/download]. *)
Inductive request :=
  | GetIndex
  | PostAnalyze (file : option upload) (now : instant)
  | GetDownload (local_today : date).

Definition digit_char (n : nat) : ascii := ascii_of_nat (48 + n).

(** [n] in decimal on [w] digits with leading zeros ([%0wd] for [n] below
    [10^w]). *)
Fixpoint pad_dec (w n : nat) : string :=
  match w with
  | 0 => EmptyString
  | S w' => pad_dec w' (n / 10) ++ String (digit_char (n mod 10)) EmptyString
  end.

(** [date.isoformat()] ([%04d-%02d-%02d]) on a valid date. *)
Definition date_isoformat (d : date) : string :=
  pad_dec 4 (Z.to_nat (year d)) ++ "-" ++ pad_dec 2 (Z.to_nat (month d)) ++ "-" ++
  pad_dec 2 (Z.to_nat (day d)).

Definition XLSX_MIME : string :=
  "application/vnd.openxmlformats-officedocument.spreadsheetml.sheet".

(** [f"planka_report_{datetime.now().date()}.xlsx"] *)
Definition download_name (local_today : date) : string :=
  "planka_report_" ++ date_isoformat local_today ++ ".xlsx".

Section Server.

Variable html_parser : list Byte.byte -> res node.
Variable round_mean2 : Q -> Q.

(** One request against the current value of [_last_workbook]: the new
    value and the response.  An exception escaping the view leaves the
    global as it was. *)
Definition handle (last_workbook : option buffer) (rq : request)
  : option buffer * response :=
  match rq with
  | GetIndex => (last_workbook, PageResp IndexPage)
  | PostAnalyze file now =>
      match upload_truthy file with
      | None => (last_workbook, TextResp "No file uploaded" 400)
      | Some u =>
          match extract_cards html_parser (file_bytes u) now with
          | Raise _ => (last_workbook, ServerError)
          | Ok cards =>
              match build_report_outputs round_mean2 cards with
              | Raise _ => (last_workbook, ServerError)
              | Ok (xlsx, sm) => (Some (mkbuffer xlsx false), PageResp (ResultPage sm))
              end
          end
      end
  | GetDownload local_today =>
      match last_workbook with
      | None => (last_workbook, TextResp "No report available. Upload a file first." 400)
      | Some b =>
          (* a [BytesIO] is true even once closed; [seek] on a closed one
             raises [ValueError] *)
          if closed b then (last_workbook, ServerError)
          else (Some (mkbuffer (contents b) true),
                FileResp (contents b) XLSX_MIME true (download_name local_today))
      end
  end.


End Server.



(** ** Auxiliary definitions for the properties below *)

(** A DATE_PAT token "MM/DD/YY" with two-digit fields. *)
Definition two_digits (n : nat) : string :=
  String (digit_char (n / 10)) (String (digit_char (n mod 10)) EmptyString).

Definition mdy_token (m d y : nat) : string :=
  two_digits m ++ "/" ++ two_digits d ++ "/" ++ two_digits y.

(** The century [%y] assigns: 69..99 to the 1900s, 00..68 to the 2000s. *)
Definition pivot_year (y : Z) : Z := if Z.leb y 68 then (2000 + y)%Z else (1900 + y)%Z.

Definition mdy_expected (m d y : nat) : option date :=
  let dt := mkdate (pivot_year (Z.of_nat y)) (Z.of_nat m) (Z.of_nat d) in
  if date_valid dt then Some dt else None.

Definition date_eqb (a b : date) : bool :=
  Z.eqb (year a) (year b) && Z.eqb (month a) (month b) && Z.eqb (day a) (day b).

Definition opt_date_eqb (a b : option date) : bool :=
  match a, b with
  | Some x, Some y => date_eqb x y
  | None, None => true
  | _, _ => false
  end.

(** [c["price"] is not None] *)
Definition is_priced (c : card) : bool :=
  match price c with Some _ => true | None => false end.

(** * Properties of the aggregator *)

Definition active_of (cards : list card) : list card := filter is_active cards.

Lemma prices_where_filter (keep : card -> bool) (cards : list card) :
  prices_where (fun _ => true) (filter keep cards) = prices_where keep cards.
Proof.
  induction cards as [|c cs IH]; simpl; [reflexivity|].
  destruct (keep c); simpl; rewrite IH; reflexivity.
Qed.

Lemma sum_or_0_sum (xs : list Z) : sum_or_0 xs = sum_Z xs.
Proof. destruct xs; reflexivity. Qed.

Lemma in_lane_rows (round_mean2 : Q -> Q) (cards : list card) (r : lane_row) :
  In r (lane_rows (build_report round_mean2 cards)) ->
  In (lr_lane r) REQUESTED_LANES /\ (0 < lr_count r)%nat /\
  exists c, In c cards /\ column c = lr_lane r.
Proof.
  cbn [build_report lane_rows].
  intros Hin. apply in_flat_map in Hin as [lane [Hlane Hr]].
  destruct (map age (filter (fun c => String.eqb (column c) lane) cards))
    as [|a ages] eqn:E; [contradiction|].
  destruct Hr as [<-|[]]; cbn [lr_lane lr_count].
  split; [exact Hlane|]. split; [simpl; lia|].
  destruct (filter (fun c => String.eqb (column c) lane) cards) as [|c cs] eqn:F;
    [discriminate|].
  exists c. assert (Hc : In c (filter (fun c => String.eqb (column c) lane) cards))
    by (rewrite F; left; reflexivity).
  apply filter_In in Hc as [Hc Heq]. split; [exact Hc|].
  apply String.eqb_eq; exact Heq.
Qed.

(** ** C1 *)

(** C1: row 0 of the Scope table counts the cards whose column is not in
    [EXCLUDED_COLUMNS_FOR_AGE], and its average age is the mean of their
    ages rounded to two decimals ([round_mean2]), or 0.0 when there are none. *)
Theorem scope_row0_active (round_mean2 : Q -> Q) (cards : list card) :
  let active := filter (fun c => negb (mem (column c) EXCLUDED_COLUMNS_FOR_AGE)) cards in
  hd_error (scope_rows (build_report round_mean2 cards)) =
    Some (mkscope "All cards (excluding Completed/Canceled)" (List.length active)
            (match active with
             | [] => 0%Q
             | _ => round_mean2 (mean (map age active))
             end)).
Proof.
  intros active. cbn [build_report scope_rows hd_error].
  unfold avg, is_active. subst active.
  destruct (filter _ cards); reflexivity.
Qed.

(** ** C5 *)

(** C5: a Lane row exists only for a requested lane that is the exact
    column of at least one card (so a lane no card sits in has no row),
    while the Label table has one row per entry of [ALL_LABELS] and the
    Scope table one row per entry of [FOCUSED_LABELS] after row 0, zero
    matches included. *)
Theorem lane_omitted_labels_kept (round_mean2 : Q -> Q) (cards : list card) :
  let R := build_report round_mean2 cards in
  (forall lane, In lane REQUESTED_LANES ->
     (forall c, In c cards -> column c <> lane) ->
     forall r, In r (lane_rows R) -> lr_lane r <> lane) /\
  (forall r, In r (lane_rows R) ->
     In (lr_lane r) REQUESTED_LANES /\ exists c, In c cards /\ column c = lr_lane r) /\
  map lb_label (all_label_rows R) = ALL_LABELS /\
  List.length (all_label_rows R) = List.length ALL_LABELS /\
  map sr_scope (tl (scope_rows R)) = FOCUSED_LABELS.
Proof.
  intros R. split; [|split; [|split; [|split]]].
  - intros lane _ Hnone r Hr Heq.
    destruct (in_lane_rows round_mean2 cards r Hr) as [_ [_ [c [Hc Hcol]]]].
    apply (Hnone c Hc). rewrite Hcol. exact Heq.
  - intros r Hr. destruct (in_lane_rows round_mean2 cards r Hr) as [H1 [_ H2]].
    split; assumption.
  - reflexivity.
  - reflexivity.
  - reflexivity.
Qed.

(** ** C6 *)

(** Count, sum and mean of one population of the Price-summary row. *)
Definition price_stats_consistent (round_mean2 : Q -> Q) (n : nat) (s : Z) (a : Q) : Prop :=
  ((0 < n)%nat -> a = round_mean2 (inject_Z s / inject_Z (Z.of_nat n))%Q) /\
  (n = 0%nat -> s = 0%Z /\ a = 0%Q /\ n = 0%nat).

Lemma price_stats_of_list (round_mean2 : Q -> Q) (xs : list Z) :
  price_stats_consistent round_mean2 (List.length xs) (sum_or_0 xs) (avg_or_0 round_mean2 xs).
Proof.
  destruct xs as [|x xs]; split.
  - simpl; lia.
  - intros _; repeat split.
  - intros _; reflexivity.
  - discriminate.
Qed.

(** C6: in the Price-summary row, for the active, won and lost
    populations, the mean is [round(sum/count, 2)] whenever the count is
    positive, and count, sum and mean are all 0 when the count is 0. *)
Theorem quoted_stats_consistent (round_mean2 : Q -> Q) (cards : list card) :
  exists q, quoted_stats (build_report round_mean2 cards) = [q] /\
    price_stats_consistent round_mean2 (total_value_count q) (total_value q) (average_value q) /\
    price_stats_consistent round_mean2 (total_won_count q) (total_won q) (average_won q) /\
    price_stats_consistent round_mean2 (total_lost_count q) (total_lost q) (average_lost q).
Proof.
  eexists; split; [reflexivity|].
  cbn [total_value_count total_value average_value total_won_count total_won
       average_won total_lost_count total_lost average_lost].
  split; [|split]; apply price_stats_of_list.
Qed.

(** ** C7 *)

(** C7: the three price populations are pairwise disjoint ("active" cards
    sit outside [EXCLUDED_COLUMNS_FOR_AGE], which holds both "Completed"
    and "Canceled"), and the Price-summary row counts and sums exactly the
    priced cards of each: active, column "Completed" (won), column
    "Canceled" (lost). *)
Theorem price_populations_disjoint (round_mean2 : Q -> Q) (cards : list card) :
  (forall c, is_active c && is_won c = false /\
             is_active c && is_lost c = false /\
             is_won c && is_lost c = false) /\
  exists q, quoted_stats (build_report round_mean2 cards) = [q] /\
    total_value_count q = List.length (prices_where is_active cards) /\
    total_value q = sum_Z (prices_where is_active cards) /\
    total_won_count q = List.length (prices_where is_won cards) /\
    total_won q = sum_Z (prices_where is_won cards) /\
    total_lost_count q = List.length (prices_where is_lost cards) /\
    total_lost q = sum_Z (prices_where is_lost cards).
Proof.
  split.
  - intros c. unfold is_active, is_won, is_lost.
    destruct (String.eqb_spec (column c) "Completed") as [E|E];
      [rewrite E; repeat split; reflexivity|].
    destruct (String.eqb_spec (column c) "Canceled") as [F|F];
      [rewrite F; repeat split; reflexivity|].
    rewrite !andb_false_r; repeat split.
  - eexists; split; [reflexivity|].
    cbn [total_value_count total_value total_won_count total_won
         total_lost_count total_lost].
    rewrite !sum_or_0_sum, !prices_where_filter.
    repeat split.
Qed.

(** ** C4 *)

(** C4: two runs of extraction and aggregation on the same bytes, with
    clock readings on the same UTC day, give the same report tables (the
    clock is read once per run and only its date is used). *)
Theorem analyze_same_day_same_tables
    (html_parser : list Byte.byte -> res node) (round_mean2 : Q -> Q)
    (html1 html2 : list Byte.byte) (now1 now2 : instant)
    (Hbytes : html1 = html2) (Hday : utc_date now1 = utc_date now2) :
  analyze html_parser round_mean2 html1 now1 = analyze html_parser round_mean2 html2 now2.
Proof.
  subst html2. unfold analyze, extract_cards. rewrite Hday. reflexivity.
Qed.

(** ** C8 *)

(** Every count, sum and average of the four tables is zero, and the Lane
    table is empty. *)
Definition all_zero_report (R : report) : Prop :=
  Forall (fun r => sr_count r = 0%nat /\ sr_avg r = 0%Q) (scope_rows R) /\
  lane_rows R = [] /\
  Forall (fun q => total_value_count q = 0%nat /\ total_value q = 0%Z /\ average_value q = 0%Q /\
                   total_won_count q = 0%nat /\ total_won q = 0%Z /\ average_won q = 0%Q /\
                   total_lost_count q = 0%nat /\ total_lost q = 0%Z /\ average_lost q = 0%Q)
         (quoted_stats R) /\
  Forall (fun r => lb_count r = 0%nat /\ lb_avg r = 0%Q) (all_label_rows R).

(** No column structure a card can be extracted from: every column
    container lacks a header, or none of its candidates has a date that
    [DATE_PAT] finds and [parse_date] reads. *)
Definition no_card_structure (soup : node) : Prop :=
  forall outer, In outer (find_all_div_class is_outer_wrapper soup) ->
    find_div_class is_header_name outer = None \/
    forall cn, In cn (card_candidates outer) ->
      match re_search DATE_PAT (get_text cn) with
      | None => True
      | Some g => parse_date g = None
      end.

Lemma cards_loop_nil (column : string) (today : date) (cs : list node) :
  (forall cn, In cn cs ->
     match re_search DATE_PAT (get_text cn) with
     | None => True
     | Some g => parse_date g = None
     end) ->
  cards_loop column today cs = Ok [].
Proof.
  induction cs as [|cn cs IH]; intros H; [reflexivity|].
  simpl. unfold card_step.
  assert (Hcn := H cn (or_introl eq_refl)).
  rewrite IH by (intros; apply H; right; assumption).
  destruct (String.eqb (get_text cn) ""); [reflexivity|].
  destruct (re_search DATE_PAT (get_text cn)) as [g|]; [|reflexivity].
  rewrite Hcn. reflexivity.
Qed.

Lemma outers_loop_nil (today : date) (os : list node) :
  (forall outer, In outer os ->
    find_div_class is_header_name outer = None \/
    forall cn, In cn (card_candidates outer) ->
      match re_search DATE_PAT (get_text cn) with
      | None => True
      | Some g => parse_date g = None
      end) ->
  outers_loop today os = Ok [].
Proof.
  induction os as [|o os IH]; intros H; [reflexivity|].
  simpl. rewrite IH by (intros; apply H; right; assumption).
  unfold column_step.
  destruct (H o (or_introl eq_refl)) as [Hn|Hc].
  - rewrite Hn. reflexivity.
  - destruct (find_div_class is_header_name o); [|reflexivity].
    rewrite cards_loop_nil by exact Hc. reflexivity.
Qed.

Lemma Forall_map_const {A B : Type} (P : B -> Prop) (f : A -> B) (l : list A) :
  (forall a, P (f a)) -> Forall P (map f l).
Proof.
  intros H. induction l; constructor; auto.
Qed.

Lemma report_overflows_nil : report_overflows [] = false.
Proof. vm_compute. reflexivity. Qed.

(** Where the parser accepts the bytes and the tree has no parseable
    column/card structure (the empty document included), extraction
    returns no card, nothing is raised, and every count, sum and average
    of the report is zero. *)
Theorem no_structure_all_zero
    (html_parser : list Byte.byte -> res node) (round_mean2 : Q -> Q)
    (html : list Byte.byte) (now : instant) (soup : node)
    (Hparse : html_parser html = Ok soup)
    (Hnone : no_card_structure soup) :
  extract_cards html_parser html now = Ok [] /\
  exists R, analyze html_parser round_mean2 html now = Ok R /\ all_zero_report R.
Proof.
  assert (E : extract_cards html_parser html now = Ok []).
  { unfold extract_cards. rewrite Hparse. cbn [res_bind].
    unfold extract_from_soup. apply outers_loop_nil. exact Hnone. }
  split; [exact E|].
  exists (build_report round_mean2 []).
  split; [unfold analyze; rewrite E; cbn [res_bind]; rewrite report_overflows_nil; reflexivity|].
  split; [|split; [|split]].
  - cbn [build_report scope_rows]. constructor; [split; reflexivity|].
    apply Forall_map_const. intros; split; reflexivity.
  - reflexivity.
  - repeat constructor.
  - cbn [build_report all_label_rows]. unfold ALL_LABELS at 1.
    apply Forall_map_const. intros; split; reflexivity.
Qed.

(** The bytes of "<![x]>": a marked section with a keyword [html.parser]
    does not know, and no column/card structure. *)
Definition marked_section_bytes : list Byte.byte :=
  [Byte.x3c; Byte.x21; Byte.x5b; Byte.x78; Byte.x5d; Byte.x3e].

(** C8 (code_bug): the parser is not total. On "<![x]>" [html.parser]
    raises [AssertionError] ("unknown status keyword 'x' in marked
    section", CPython 3.10 to 3.13), which BeautifulSoup re-raises as
    [ParserRejectedMarkup]. Nothing in [extract_cards] or in the
    [/analyze] view catches it: extraction and aggregation raise instead
    of returning empty tables, and the upload is answered with a 500. *)
Theorem unknown_marked_section_raises
    (html_parser : list Byte.byte -> res node) (round_mean2 : Q -> Q)
    (now : instant) (st : option buffer)
    (Hrej : html_parser marked_section_bytes = Raise ParserRejectedMarkup) :
  extract_cards html_parser marked_section_bytes now = Raise ParserRejectedMarkup /\
  analyze html_parser round_mean2 marked_section_bytes now = Raise ParserRejectedMarkup /\
  handle html_parser round_mean2 st
    (PostAnalyze (Some (mkupload "board.html" marked_section_bytes)) now) = (st, ServerError).
Proof.
  assert (E : extract_cards html_parser marked_section_bytes now = Raise ParserRejectedMarkup)
    by (unfold extract_cards; rewrite Hrej; reflexivity).
  split; [exact E|]. split.
  - unfold analyze. rewrite E. reflexivity.
  - cbn [handle upload_truthy filename file_bytes String.eqb Ascii.eqb Bool.eqb].
    rewrite E. reflexivity.
Qed.

Lemma unknown_marked_section_raises_witness :
  (fun _ : list Byte.byte => Raise (A := node) ParserRejectedMarkup) marked_section_bytes =
    Raise ParserRejectedMarkup /\
  (extract_cards (fun _ => Raise ParserRejectedMarkup) marked_section_bytes
     (mkinstant (mkdate 2023 1 12) 0) = Raise ParserRejectedMarkup /\
   analyze (fun _ => Raise ParserRejectedMarkup) (fun q => q) marked_section_bytes
     (mkinstant (mkdate 2023 1 12) 0) = Raise ParserRejectedMarkup /\
   handle (fun _ => Raise ParserRejectedMarkup) (fun q => q) None
     (PostAnalyze (Some (mkupload "board.html" marked_section_bytes))
        (mkinstant (mkdate 2023 1 12) 0)) = (None, ServerError)).
Proof.
  split; [reflexivity|].
  apply (unknown_marked_section_raises (fun _ => Raise ParserRejectedMarkup) (fun q => q)
           (mkinstant (mkdate 2023 1 12) 0) None).
  reflexivity.
Defined.

(** * Properties of the card extractor *)

Lemma card_step_get_text (column : string) (today : date) (n1 n2 : node) :
  get_text n1 = get_text n2 ->
  card_step column today n1 = card_step column today n2.
Proof. intros H. unfold card_step. rewrite H. reflexivity. Qed.

Lemma card_step_column (col : string) (today : date) (n : node) (c : card) :
  card_step col today n = Ok (Some c) -> col = column c.
Proof.
  unfold card_step.
  destruct (String.eqb (get_text n) ""); [discriminate|].
  destruct (re_search DATE_PAT (get_text n)); [|discriminate].
  destruct (parse_date s); [|discriminate].
  destruct (re_search PRICE_PAT (get_text n)).
  - destruct (py_int (remove_commas s0)); [|discriminate].
    cbn. intros H; injection H as <-. reflexivity.
  - intros H; injection H as <-. reflexivity.
Qed.

(** ** C9: the fallback scan of [extract_cards] *)

Definition header_div (h : string) : node := Elem "div" ["_headerName_col"] [Txt h].

(** A card div [Elem "div" [] [Txt t]] wrapped in [k] further divs. *)
Fixpoint nest (k : nat) (t : string) : node :=
  match k with
  | 0 => Elem "div" [] [Txt t]
  | S k' => Elem "div" [] [nest k' t]
  end.

(** The divs strictly inside [nest k t], outermost first. *)
Fixpoint nest_chain (k : nat) (t : string) : list node :=
  match k with
  | 0 => []
  | S k' => nest k' t :: nest_chain k' t
  end.

Definition column_div (items : list node) : node :=
  Elem "div" ["_outerWrapper_col"] items.

Definition soup_of (items : list node) : node :=
  Elem "[document]" [] [column_div items].

Lemma descendants_nest (k : nat) (t : string) :
  descendants (nest (S k) t) = nest k t :: descendants (nest k t).
Proof. simpl. rewrite app_nil_r. reflexivity. Qed.

Lemma nest_shape (k : nat) (t : string) :
  exists ch, nest k t = Elem "div" [] ch.
Proof. destruct k; eexists; reflexivity. Qed.

Lemma filter_descendants_nest (f : node -> bool) (k : nat) (t : string) :
  f (Txt t) = false ->
  (forall ch, f (Elem "div" [] ch) = false) ->
  filter f (descendants (nest k t)) = [].
Proof.
  intros Ht He. induction k as [|k IH].
  - simpl. rewrite Ht. reflexivity.
  - rewrite descendants_nest. simpl.
    destruct (nest_shape k t) as [ch Hch]. rewrite Hch at 1. rewrite He. exact IH.
Qed.

Lemma divs_of_nest (k : nat) (t : string) :
  filter is_div (descendants (nest k t)) = nest_chain k t.
Proof.
  induction k as [|k IH]; [reflexivity|].
  rewrite descendants_nest. simpl.
  destruct (nest_shape k t) as [ch Hch]. rewrite Hch at 1. simpl. rewrite IH. reflexivity.
Qed.

Lemma get_text_nest (k : nat) (t : string) :
  get_text (nest k t) = get_text (nest 0 t).
Proof.
  induction k as [|k IH]; [reflexivity|].
  rewrite <- IH. unfold get_text. rewrite descendants_nest.
  destruct (nest_shape k t) as [ch Hch]. rewrite Hch at 1. reflexivity.
Qed.

Lemma cards_loop_cons (column : string) (today : date) (x : node) (xs : list node) :
  cards_loop column today (x :: xs) =
    (o <- card_step column today x ;;
     rest <- cards_loop column today xs ;;
     Ok (option_list o ++ rest)%list).
Proof. reflexivity. Qed.

Lemma cards_loop_chain (column : string) (today : date) (k : nat) (t : string) (c : card) :
  card_step column today (nest 0 t) = Ok (Some c) ->
  cards_loop column today (nest k t :: nest_chain k t) = Ok (repeat c (S k)).
Proof.
  intros H. induction k as [|k IH].
  - cbn [cards_loop nest_chain]. rewrite H. reflexivity.
  - change (nest_chain (S k) t) with (nest k t :: nest_chain k t).
    rewrite cards_loop_cons.
    rewrite (card_step_get_text column today (nest (S k) t) (nest 0 t))
      by apply get_text_nest.
    rewrite H. cbn [res_bind]. rewrite IH. reflexivity.
Qed.

Lemma no_class_outer (ch : list node) :
  is_div (Elem "div" [] ch) && class_matches is_outer_wrapper [] = false.
Proof. reflexivity. Qed.

Lemma no_class_card (ch : list node) :
  is_div (Elem "div" [] ch) && existsb (String.eqb "card") [] = false.
Proof. reflexivity. Qed.

Lemma filter_cons_true {A : Type} (f : A -> bool) (x : A) (l : list A) :
  f x = true -> filter f (x :: l) = x :: filter f l.
Proof. intros H. simpl. rewrite H. reflexivity. Qed.

Lemma filter_cons_false {A : Type} (f : A -> bool) (x : A) (l : list A) :
  f x = false -> filter f (x :: l) = filter f l.
Proof. intros H. simpl. rewrite H. reflexivity. Qed.

Lemma descendants_column_nest (h : string) (k : nat) (t : string) :
  descendants (column_div [header_div h; nest k t]) =
    header_div h :: Txt h :: nest k t :: descendants (nest k t).
Proof. simpl. rewrite !app_nil_r. reflexivity. Qed.

Lemma outers_of_column_nest (h : string) (k : nat) (t : string) :
  find_all_div_class is_outer_wrapper (soup_of [header_div h; nest k t]) =
    [column_div [header_div h; nest k t]].
Proof.
  unfold find_all_div_class.
  change (descendants (soup_of [header_div h; nest k t])) with
    (column_div [header_div h; nest k t] ::
     (descendants (column_div [header_div h; nest k t]) ++ [])).
  rewrite app_nil_r, descendants_column_nest.
  rewrite filter_cons_true by reflexivity.
  rewrite filter_cons_false by reflexivity.
  rewrite filter_cons_false by reflexivity.
  rewrite filter_cons_false by (destruct k; reflexivity).
  rewrite (filter_descendants_nest _ k t eq_refl no_class_outer). reflexivity.
Qed.

Lemma header_of_column_nest (h : string) (k : nat) (t : string) :
  find_div_class is_header_name (column_div [header_div h; nest k t]) = Some (header_div h).
Proof.
  unfold find_div_class, find_all_div_class. rewrite descendants_column_nest.
  rewrite filter_cons_true by reflexivity. reflexivity.
Qed.

Lemma candidates_of_column_nest (h : string) (k : nat) (t : string) :
  card_candidates (column_div [header_div h; nest k t]) =
    header_div h :: nest k t :: nest_chain k t.
Proof.
  unfold card_candidates, select_div_card, find_all_divs.
  rewrite descendants_column_nest.
  rewrite filter_cons_false by reflexivity.
  rewrite filter_cons_false by reflexivity.
  rewrite filter_cons_false by (destruct k; reflexivity).
  rewrite (filter_descendants_nest _ k t eq_refl no_class_card).
  rewrite filter_cons_true by reflexivity.
  rewrite filter_cons_false by reflexivity.
  rewrite filter_cons_true by (destruct k; reflexivity).
  rewrite divs_of_nest. reflexivity.
Qed.

(** C9: when a column container has no [div.card], every descendant div is
    a card candidate, the header div included; a dated card div wrapped in
    [k] further divs yields [k+1] identical cards; and a header whose own
    text carries a readable "Received" date is emitted as a card of its
    own column. *)
Theorem fallback_scan_candidates :
  (forall outer hdr,
     select_div_card outer = [] ->
     find_div_class is_header_name outer = Some hdr ->
     card_candidates outer = find_all_divs outer /\ In hdr (card_candidates outer)) /\
  (forall k h t today c,
     card_step (get_text (header_div h)) today (header_div h) = Ok None ->
     card_step (get_text (header_div h)) today (nest 0 t) = Ok (Some c) ->
     extract_from_soup (soup_of [header_div h; nest k t]) today = Ok (repeat c (S k))) /\
  (forall h today c,
     card_step (get_text (header_div h)) today (header_div h) = Ok (Some c) ->
     extract_from_soup (soup_of [header_div h]) today = Ok [c] /\
     column c = get_text (header_div h)).
Proof.
  split; [|split].
  - intros outer hdr Hsel Hfind.
    unfold card_candidates. rewrite Hsel. split; [reflexivity|].
    unfold find_div_class, find_all_div_class in Hfind.
    destruct (filter _ (descendants outer)) as [|d ds] eqn:F; [discriminate|].
    injection Hfind as <-.
    assert (Hd : In d (filter (fun d => is_div d && class_matches is_header_name (node_classes d))
                          (descendants outer))) by (rewrite F; left; reflexivity).
    apply filter_In in Hd as [Hin Hp]. apply andb_prop in Hp as [Hdiv _].
    unfold find_all_divs. apply filter_In. split; assumption.
  - intros k h t today c Hhdr Hcard.
    unfold extract_from_soup. rewrite outers_of_column_nest. cbn [outers_loop].
    unfold column_step. rewrite header_of_column_nest. cbv beta iota zeta.
    rewrite candidates_of_column_nest, cards_loop_cons, Hhdr. cbn [res_bind].
    rewrite (cards_loop_chain _ _ k t c Hcard).
    cbn [res_bind option_list app]. rewrite app_nil_r. reflexivity.
  - intros h today c Hstep.
    split; [|apply card_step_column in Hstep; symmetry; exact Hstep].
    assert (Ho : find_all_div_class is_outer_wrapper (soup_of [header_div h])
                 = [column_div [header_div h]]) by reflexivity.
    assert (Hh : find_div_class is_header_name (column_div [header_div h])
                 = Some (header_div h)) by reflexivity.
    assert (Hc : card_candidates (column_div [header_div h]) = [header_div h])
      by reflexivity.
    unfold extract_from_soup. rewrite Ho. cbn [outers_loop].
    unfold column_step. rewrite Hh. cbv beta iota zeta.
    rewrite Hc, cards_loop_cons, Hstep. reflexivity.
Qed.

(** ** C10: the captured price *)

Fixpoint all_chars (f : ascii -> bool) (s : string) : bool :=
  match s with
  | EmptyString => true
  | String c s' => f c && all_chars f s'
  end.

Definition is_cls (a : atom) : bool :=
  match a with Cls _ _ _ => true | _ => false end.

Lemma try_len_some (m : string -> option string) (s : string) (lo k : nat) (r : string) :
  try_len m s lo k = Some r -> exists k', m (drop k' s) = Some r.
Proof.
  induction k as [|k IH]; intros H.
  - exists 0. change (match m (drop 0 s) with Some g => Some g | None => None end = Some r) in H.
    destruct (m (drop 0 s)); [exact H|discriminate].
  - change (match m (drop (S k) s) with
            | Some g => Some g
            | None => if k <? lo then None else try_len m s lo k
            end = Some r) in H.
    destruct (m (drop (S k) s)) eqn:E.
    + exists (S k). rewrite E. exact H.
    + destruct (k <? lo); [discriminate|exact (IH H)].
Qed.

Lemma try_len_hit (m : string -> option string) (s : string) (lo k : nat) (x : string) :
  m (drop k s) = Some x -> try_len m s lo k = Some x.
Proof. intros H. destruct k; cbn [try_len]; rewrite H; reflexivity. Qed.

Lemma re_match_skip_cls (pre post : list atom) (s o g r : string) :
  forallb is_cls pre = true ->
  re_match (pre ++ post) s o g = Some r ->
  exists s', re_match post s' o g = Some r.
Proof.
  revert s. induction pre as [|a pre IH]; intros s Hcls H.
  - exists s. exact H.
  - destruct a as [f lo hi| |]; try discriminate.
    simpl in Hcls. simpl in H.
    destruct (run_len f hi s <? lo); [discriminate|].
    apply try_len_some in H as [k' Hk].
    exact (IH _ Hcls Hk).
Qed.

Lemma re_search_some (p : list atom) (s r : string) :
  re_search p s = Some r -> exists s', re_match p s' s' EmptyString = Some r.
Proof.
  induction s as [|c s IH]; simpl.
  - destruct (re_match p "" "" "") eqn:E;
      [intros H; injection H as <-; exists ""; exact E|discriminate].
  - destruct (re_match p (String c s) (String c s) "") eqn:E.
    + intros H; injection H as <-. eexists; exact E.
    + exact IH.
Qed.

Lemma forallb_lits_ci (s : string) : forallb is_cls (lits_ci s) = true.
Proof. induction s; simpl; auto. Qed.

Lemma run_len_le (f : ascii -> bool) (s : string) :
  run_len f None s <= String.length s.
Proof. induction s; simpl; [lia|destruct (f a); simpl; lia]. Qed.

Lemma length_drop (k : nat) (s : string) :
  String.length (drop k s) = String.length s - k.
Proof.
  revert s; induction k; intros s; destruct s; simpl; auto.
Qed.

Lemma run_prefix_chars (f : ascii -> bool) (s : string) :
  all_chars f (substring 0 (run_len f None s) s) = true.
Proof.
  induction s as [|c s IH]; simpl; [reflexivity|].
  destruct (f c) eqn:E; simpl; [rewrite E; exact IH|reflexivity].
Qed.

Lemma run_prefix_nonempty (f : ascii -> bool) (s : string) :
  1 <= run_len f None s -> substring 0 (run_len f None s) s <> EmptyString.
Proof.
  destruct s as [|c s]; simpl; [lia|].
  destruct (f c); simpl; [discriminate|lia].
Qed.

Definition price_char (c : ascii) : bool := is_digit c || Ascii.eqb c ",".

(** What [PRICE_PAT] captures: a non-empty run of digits and commas. *)
Lemma price_group_chars (s g : string) :
  re_search PRICE_PAT s = Some g ->
  all_chars price_char g = true /\ g <> EmptyString.
Proof.
  intros H. apply re_search_some in H as [s0 H].
  unfold PRICE_PAT in H.
  change ([Cls is_space 0 None; Cls (fun c => Ascii.eqb c "$" || Ascii.eqb c ":") 0 None;
           Cls is_space 0 None; GOpen; Cls (fun c => is_digit c || Ascii.eqb c ",") 1 None; GClose])
    with ([Cls is_space 0 None; Cls (fun c => Ascii.eqb c "$" || Ascii.eqb c ":") 0 None;
           Cls is_space 0 None] ++ [GOpen; Cls price_char 1 None; GClose])%list in H.
  rewrite app_assoc in H.
  apply re_match_skip_cls in H as [s1 H];
    [|rewrite forallb_app, forallb_lits_ci; reflexivity].
  simpl in H.
  destruct (run_len price_char None s1 <? 1) eqn:Elo; [discriminate|].
  apply Nat.ltb_ge in Elo.
  erewrite try_len_hit in H; [|reflexivity].
  rewrite length_drop in H.
  replace (String.length s1 - (String.length s1 - run_len price_char None s1))
    with (run_len price_char None s1) in H by (pose proof (run_len_le price_char s1); lia).
  injection H as <-.
  split; [apply run_prefix_chars|apply run_prefix_nonempty; exact Elo].
Qed.

Lemma digit_not_space (c : ascii) : is_digit c = true -> is_space c = false.
Proof.
  unfold is_digit, is_space. intros H.
  apply andb_prop in H as [H1 H2].
  apply Nat.leb_le in H1. apply Nat.leb_le in H2.
  destruct (9 <=? code c) eqn:A; destruct (code c <=? 13) eqn:B;
  destruct (28 <=? code c) eqn:C; destruct (code c <=? 32) eqn:D; try reflexivity;
  apply Nat.leb_le in B || apply Nat.leb_le in D; lia.
Qed.

Lemma strip_digits (d : string) : all_chars is_digit d = true -> strip d = d.
Proof.
  intros H. unfold strip.
  assert (Hl : lstrip d = d).
  { destruct d as [|c d]; [reflexivity|]. simpl in H. apply andb_prop in H as [Hc _].
    simpl. rewrite (digit_not_space c Hc). reflexivity. }
  rewrite Hl. clear Hl.
  induction d as [|c d IH]; [reflexivity|].
  simpl in H. apply andb_prop in H as [Hc Hd].
  simpl. rewrite (IH Hd). destruct d; [rewrite (digit_not_space c Hc)|]; reflexivity.
Qed.

Lemma remove_commas_digits (g : string) :
  all_chars price_char g = true -> all_chars is_digit (remove_commas g) = true.
Proof.
  induction g as [|c g IH]; [reflexivity|].
  simpl. intros H. apply andb_prop in H as [Hc Hg].
  destruct (Ascii.eqb c ",") eqn:E; [exact (IH Hg)|].
  unfold price_char in Hc. rewrite E, orb_false_r in Hc.
  simpl. rewrite Hc. exact (IH Hg).
Qed.

Lemma digits_acc_nonneg (acc : Z) (s : string) : (0 <= acc)%Z -> (0 <= digits_acc acc s)%Z.
Proof.
  revert acc. induction s as [|c s IH]; intros acc H; simpl; [exact H|].
  destruct (is_digit c); apply IH; lia.
Qed.

Lemma int_body_digits (d : string) : all_chars is_digit d = true -> int_body_ok false d = true.
Proof.
  induction d as [|c d IH]; [reflexivity|].
  cbn [all_chars int_body_ok]. intros H. apply andb_prop in H as [Hc Hd].
  rewrite Hc. exact (IH Hd).
Qed.

Lemma count_digits_all (d : string) :
  all_chars is_digit d = true -> count_digits d = String.length d.
Proof.
  induction d as [|c d IH]; [reflexivity|].
  cbn [all_chars count_digits String.length]. intros H. apply andb_prop in H as [Hc Hd].
  rewrite Hc, (IH Hd). reflexivity.
Qed.

(** [int] on a non-empty run of digits: its value, unless the run is
    longer than [INT_MAX_STR_DIGITS]. *)
Lemma py_int_all_digits (d : string) :
  all_chars is_digit d = true -> d <> "" ->
  py_int d = if Nat.leb (String.length d) INT_MAX_STR_DIGITS then Ok (digits_value d)
             else Raise ValueError.
Proof.
  intros Hd Hne. unfold py_int. rewrite (strip_digits d Hd).
  destruct d as [|c b]; [congruence|].
  pose proof (count_digits_all _ Hd) as Hcount.
  cbn [all_chars] in Hd. apply andb_prop in Hd as [Hc Hb].
  destruct (Ascii.eqb_spec c "-") as [->|_]; [discriminate Hc|].
  destruct (Ascii.eqb_spec c "+") as [->|_]; [discriminate Hc|].
  replace (int_body_ok true (String c b)) with true
    by (cbn [int_body_ok]; rewrite Hc, (int_body_digits b Hb); reflexivity).
  rewrite Hcount. destruct (Nat.leb _ _); [|reflexivity].
  rewrite Z.mul_1_l. reflexivity.
Qed.

Lemma py_int_empty : py_int "" = Raise ValueError.
Proof. reflexivity. Qed.

Lemma py_int_digits (d : string) (p : Z) :
  all_chars is_digit d = true -> py_int d = Ok p ->
  p = digits_value d /\ (0 <= p)%Z.
Proof.
  intros Hd. destruct (String.string_dec d "") as [->|Hne]; [discriminate|].
  rewrite (py_int_all_digits d Hd Hne).
  destruct (Nat.leb _ _); [|discriminate].
  intros H; injection H as <-.
  split; [reflexivity|apply digits_acc_nonneg; lia].
Qed.

(** C10: a card's [price] is the first group [PRICE_PAT] captures in its
    text (digits and commas only) with every comma removed, read as a
    decimal number, hence non-negative; commas are not checked as
    thousands separators: "Quoted Price 1,2" gives 12. *)
Theorem card_price_is_group_without_commas
    (column : string) (today : date) (cn : node) (c : card) (p : Z)
    (Hstep : card_step column today cn = Ok (Some c))
    (Hp : price c = Some p) :
  (exists g, re_search PRICE_PAT (text c) = Some g /\
     all_chars price_char g = true /\
     all_chars is_digit (remove_commas g) = true /\
     p = digits_value (remove_commas g) /\ (0 <= p)%Z) /\
  (exists c', card_step "Scheduled" (mkdate 2023 1 12)
                (Elem "div" [] [Txt "Received: 01/02/23 Quoted Price 1,2"]) = Ok (Some c') /\
              price c' = Some 12%Z).
Proof.
  split; [|eexists; split; reflexivity].
  unfold card_step in Hstep.
  destruct (String.eqb (get_text cn) ""); [discriminate|].
  destruct (re_search DATE_PAT (get_text cn)) as [dg|]; [|discriminate].
  destruct (parse_date dg) as [d|]; [|discriminate].
  destruct (re_search PRICE_PAT (get_text cn)) as [pg|] eqn:Ep.
  - destruct (py_int (remove_commas pg)) as [p0|] eqn:Ei; [|discriminate].
    cbn [res_bind] in Hstep. injection Hstep as <-. cbn [price] in Hp.
    injection Hp as ->. cbn [text].
    destruct (price_group_chars _ _ Ep) as [Hg _].
    pose proof (remove_commas_digits pg Hg) as Hd.
    destruct (py_int_digits _ _ Hd Ei) as [Hv Hn].
    exists pg. repeat split; assumption.
  - injection Hstep as <-. discriminate Hp.
Qed.

(** ** C2: one card with a comma-only price aborts the whole extraction *)

(** A column "Scheduled" with a well-formed card and a card whose
    "Quoted Price" is followed by a comma only. *)
Definition doc_comma_price : node :=
  Elem "[document]" []
    [Elem "div" ["_outerWrapper_col"]
       [Elem "div" ["_headerName_col"] [Txt "Scheduled"];
        Elem "div" ["card"] [Txt "Received: 01/02/23"];
        Elem "div" ["card"] [Txt "Received: 01/03/23 Quoted Price ,"]]].

(** C2 (code_bug): [PRICE_PAT] captures "," after "Quoted Price", [int("")]
    raises [ValueError], nothing catches it, and the extraction of the
    whole document fails, the well-formed card with it. *)
Theorem extract_raises_on_comma_only_price :
  re_search PRICE_PAT "Received: 01/03/23 Quoted Price ," = Some "," /\
  py_int (remove_commas ",") = Raise ValueError /\
  card_step "Scheduled" (mkdate 2023 1 12)
    (Elem "div" ["card"] [Txt "Received: 01/03/23 Quoted Price ,"]) = Raise ValueError /\
  extract_from_soup doc_comma_price (mkdate 2023 1 12) = Raise ValueError.
Proof. repeat split; vm_compute; reflexivity. Qed.

(** ** C3: an ISO date never reaches [parse_date] *)

Definition doc_iso_date : node :=
  Elem "[document]" []
    [Elem "div" ["_outerWrapper_col"]
       [Elem "div" ["_headerName_col"] [Txt "Scheduled"];
        Elem "div" ["card"] [Txt "Received: 2023-01-02"]]].

(** C3 (code_bug): [parse_date] reads "2023-01-02" with its third format,
    but [DATE_PAT] only captures slash-separated tokens, so a card dated
    "Received: 2023-01-02" has no date and is dropped. *)
Theorem iso_received_date_dropped :
  parse_date "2023-01-02" = Some (mkdate 2023 1 2) /\
  re_search DATE_PAT "Received: 2023-01-02" = None /\
  extract_from_soup doc_iso_date (mkdate 2023 1 12) = Ok [].
Proof. repeat split; vm_compute; reflexivity. Qed.

(** * Witnesses *)

Definition soup_one_card : node :=
  Elem "[document]" []
    [Elem "div" ["_outerWrapper_col"]
       [Elem "div" ["_headerName_col"] [Txt "Scheduled"];
        Elem "div" ["card"] [Txt "Received: 01/02/23 Quoted Price $1,200"]]].

Lemma analyze_same_day_same_tables_witness :
  ([] : list Byte.byte) = [] /\
  utc_date (mkinstant (mkdate 2023 1 12) 0) = utc_date (mkinstant (mkdate 2023 1 12) 86399) /\
  analyze (fun _ => Ok soup_one_card) (fun q => q) [] (mkinstant (mkdate 2023 1 12) 0) =
  analyze (fun _ => Ok soup_one_card) (fun q => q) [] (mkinstant (mkdate 2023 1 12) 86399).
Proof.
  split; [reflexivity|]. split; [reflexivity|].
  apply (analyze_same_day_same_tables (fun _ => Ok soup_one_card) (fun q => q) [] []
           (mkinstant (mkdate 2023 1 12) 0) (mkinstant (mkdate 2023 1 12) 86399));
    reflexivity.
Defined.

Lemma no_structure_all_zero_witness :
  no_card_structure (Elem "[document]" [] []) /\
  (extract_cards (fun _ => Ok (Elem "[document]" [] [])) [] (mkinstant (mkdate 2023 1 12) 0) = Ok [] /\
   exists R, analyze (fun _ => Ok (Elem "[document]" [] [])) (fun q => q) []
               (mkinstant (mkdate 2023 1 12) 0) = Ok R /\ all_zero_report R).
Proof.
  assert (H : no_card_structure (Elem "[document]" [] []))
    by (intros o Ho; simpl in Ho; contradiction).
  split; [exact H|].
  apply (no_structure_all_zero (fun _ => Ok (Elem "[document]" [] [])) (fun q => q) []
           (mkinstant (mkdate 2023 1 12) 0) (Elem "[document]" [] []) eq_refl H).
Defined.

Lemma card_price_is_group_without_commas_witness :
  card_step "Scheduled" (mkdate 2023 1 12)
    (Elem "div" ["card"] [Txt "Received: 01/02/23 Quoted Price $1,200"]) =
    Ok (Some (mkcard "Scheduled" "Received: 01/02/23 Quoted Price $1,200"
                (mkdate 2023 1 2) 10 (Some 1200%Z))) /\
  price (mkcard "Scheduled" "Received: 01/02/23 Quoted Price $1,200"
           (mkdate 2023 1 2) 10 (Some 1200%Z)) = Some 1200%Z /\
  ((exists g, re_search PRICE_PAT "Received: 01/02/23 Quoted Price $1,200" = Some g /\
     all_chars price_char g = true /\
     all_chars is_digit (remove_commas g) = true /\
     1200%Z = digits_value (remove_commas g) /\ (0 <= 1200)%Z) /\
   (exists c', card_step "Scheduled" (mkdate 2023 1 12)
                 (Elem "div" [] [Txt "Received: 01/02/23 Quoted Price 1,2"]) = Ok (Some c') /\
               price c' = Some 12%Z)).
Proof.
  split; [vm_compute; reflexivity|]. split; [reflexivity|].
  apply (card_price_is_group_without_commas "Scheduled" (mkdate 2023 1 12)
           (Elem "div" ["card"] [Txt "Received: 01/02/23 Quoted Price $1,200"])
           (mkcard "Scheduled" "Received: 01/02/23 Quoted Price $1,200"
              (mkdate 2023 1 2) 10 (Some 1200%Z)) 1200%Z);
    [vm_compute; reflexivity|reflexivity].
Defined.

Lemma fallback_scan_candidates_witness :
  extract_from_soup (soup_of [header_div "Scheduled"; nest 2 "Received: 01/02/23"])
    (mkdate 2023 1 12) =
  Ok (repeat (mkcard "Scheduled" "Received: 01/02/23" (mkdate 2023 1 2) 10 None) 3).
Proof.
  destruct fallback_scan_candidates as [_ [H _]].
  apply H; vm_compute; reflexivity.
Defined.

(** * Further properties of the parsers and the extractor *)

Lemma try_len_some_le (m : string -> option string) (s : string) (lo k : nat) (r : string) :
  try_len m s lo k = Some r -> exists k', k' <= k /\ m (drop k' s) = Some r.
Proof.
  induction k as [|k IH]; intros H.
  - exists 0. split; [lia|].
    change (match m (drop 0 s) with Some g => Some g | None => None end = Some r) in H.
    destruct (m (drop 0 s)); [exact H|discriminate].
  - change (match m (drop (S k) s) with
            | Some g => Some g
            | None => if k <? lo then None else try_len m s lo k
            end = Some r) in H.
    destruct (m (drop (S k) s)) eqn:E.
    + exists (S k). split; [lia|]. rewrite E. exact H.
    + destruct (k <? lo); [discriminate|].
      destruct (IH H) as [k' [Hle Hk]]. exists k'. split; [lia|exact Hk].
Qed.

Lemma all_chars_app (f : ascii -> bool) (a b : string) :
  all_chars f (a ++ b) = all_chars f a && all_chars f b.
Proof. induction a; simpl; [reflexivity|rewrite IHa, andb_assoc; reflexivity]. Qed.

Lemma string_app_assoc (a b c : string) : ((a ++ b) ++ c = a ++ (b ++ c))%string.
Proof. induction a; simpl; [reflexivity|rewrite IHa; reflexivity]. Qed.

Lemma string_app_length (a b : string) :
  String.length (a ++ b) = String.length a + String.length b.
Proof. induction a; simpl; auto. Qed.

Lemma substring_app_prefix (a b : string) : substring 0 (String.length a) (a ++ b) = a.
Proof. induction a; simpl; [destruct b; reflexivity|rewrite IHa; reflexivity]. Qed.

(** The first [k] characters of [s], when [k] is within the run of
    characters in [f], are in [f], and split [s]. *)
Lemma run_len_split (f : ascii -> bool) (hi : option nat) (k : nat) (s : string) :
  k <= run_len f hi s ->
  all_chars f (substring 0 k s) = true /\ s = (substring 0 k s ++ drop k s)%string.
Proof.
  revert hi k. induction s as [|c s IH]; intros hi k Hk.
  - simpl in Hk. assert (k = 0) as -> by lia. split; reflexivity.
  - destruct k as [|k]; [split; reflexivity|].
    assert (Hf : f c = true /\ exists h, k <= run_len f h s).
    { simpl in Hk. destruct hi as [[|h]|].
      - lia.
      - destruct (f c); [split; [reflexivity|exists (Some h); lia]|lia].
      - destruct (f c); [split; [reflexivity|exists None; lia]|lia]. }
    destruct Hf as [Hf [h Hh]]. destruct (IH h k Hh) as [A B].
    simpl. rewrite Hf, A. split; [reflexivity|]. rewrite B at 1. reflexivity.
Qed.

(** Every atom of [p] is a character class contained in [S]. *)
Definition classes_within (S : ascii -> bool) (p : list atom) : Prop :=
  Forall (fun a => match a with
                   | Cls f _ _ => forall c, f c = true -> S c = true
                   | _ => False
                   end) p.

Lemma all_chars_weaken (f S : ascii -> bool) (s : string) :
  (forall c, f c = true -> S c = true) -> all_chars f s = true -> all_chars S s = true.
Proof.
  intros H. induction s; simpl; [reflexivity|].
  intros Ha. apply andb_prop in Ha as [A B]. rewrite (H _ A). exact (IHs B).
Qed.

(** A group made of classes contained in [S] captures characters of [S]. *)
Lemma re_match_group_within (S : ascii -> bool) (p : list atom) :
  classes_within S p ->
  forall pre s g r,
    all_chars S pre = true ->
    re_match (p ++ [GClose]) s (pre ++ s) g = Some r ->
    all_chars S r = true.
Proof.
  induction p as [|a p IH]; intros Hp pre s g r Hpre H.
  - simpl in H. injection H as <-.
    rewrite string_app_length.
    replace (String.length pre + String.length s - String.length s) with (String.length pre)
      by lia.
    rewrite substring_app_prefix. exact Hpre.
  - inversion Hp as [|? ? Ha Hp']; subst.
    destruct a as [f lo hi| |]; try contradiction.
    cbn [app re_match] in H.
    destruct (run_len f hi s <? lo); [discriminate|].
    apply try_len_some_le in H as [k [Hk H]].
    destruct (run_len_split f hi k s Hk) as [Hc Hs].
    apply (IH Hp' (pre ++ substring 0 k s)%string (drop k s) g r).
    + rewrite all_chars_app, Hpre. exact (all_chars_weaken f S _ Ha Hc).
    + rewrite string_app_assoc, <- Hs. exact H.
Qed.

Lemma re_match_open (p : list atom) (s o g : string) :
  re_match (GOpen :: p) s o g = re_match p s s g.
Proof. reflexivity. Qed.

(** The characters a [DATE_PAT] token is made of. *)
Definition date_char (c : ascii) : bool := is_digit c || Ascii.eqb c "/".

Lemma slash_within (c : ascii) : Ascii.eqb (lower c) (lower "/") = true -> date_char c = true.
Proof.
  destruct c as [[] [] [] [] [] [] [] []]; vm_compute; intros H;
    first [reflexivity | discriminate H].
Qed.

Lemma digit_within (c : ascii) : is_digit c = true -> date_char c = true.
Proof. unfold date_char. intros ->. reflexivity. Qed.

Lemma date_group_within :
  classes_within date_char
    [Cls is_digit 1 (Some 2); lit_ci "/"; Cls is_digit 1 (Some 2); lit_ci "/";
     Cls is_digit 2 (Some 4)].
Proof.
  constructor; [exact digit_within|].
  constructor; [exact slash_within|].
  constructor; [exact digit_within|].
  constructor; [exact slash_within|].
  constructor; [exact digit_within|].
  constructor.
Qed.

Lemma date_pat_group_chars (s g : string) :
  re_search DATE_PAT s = Some g -> all_chars date_char g = true.
Proof.
  intros H. apply re_search_some in H as [s0 H].
  unfold DATE_PAT in H.
  change ([Cls (fun c => Ascii.eqb c ":" || is_space c) 1 None; GOpen;
           Cls is_digit 1 (Some 2); lit_ci "/"; Cls is_digit 1 (Some 2); lit_ci "/";
           Cls is_digit 2 (Some 4); GClose])
    with ([Cls (fun c => Ascii.eqb c ":" || is_space c) 1 None] ++
          [GOpen] ++
          ([Cls is_digit 1 (Some 2); lit_ci "/"; Cls is_digit 1 (Some 2); lit_ci "/";
            Cls is_digit 2 (Some 4)] ++ [GClose]))%list in H.
  rewrite app_assoc in H.
  apply re_match_skip_cls in H as [s1 H];
    [|rewrite forallb_app, forallb_lits_ci; reflexivity].
  rewrite <- app_comm_cons, app_nil_l, re_match_open in H.
  exact (re_match_group_within date_char _ date_group_within EmptyString s1 _ _ eq_refl H).
Qed.


(** ** The three formats of [parse_date] on a [DATE_PAT] token *)

Lemma dash_not_date_char (c : ascii) : date_char c = true -> Ascii.eqb (lower c) (lower "-") = false.
Proof.
  destruct c as [[] [] [] [] [] [] [] []]; vm_compute; intros H;
    first [reflexivity | discriminate H].
Qed.

Lemma match_branch_app (b : branch) (s m r : string) :
  match_branch b s = Some (m, r) -> s = (m ++ r)%string.
Proof.
  revert s m r. induction b as [|f b IH]; intros s m r H; simpl in H.
  - injection H as <- <-. reflexivity.
  - destruct s as [|c s]; [discriminate|]. destruct (f c); [|discriminate].
    destruct (match_branch b s) as [[m' r']|] eqn:E; [|discriminate].
    injection H as <- <-. simpl. rewrite (IH _ _ _ E). reflexivity.
Qed.
Lemma strp_match_single (d : directive) (b : branch) (fmt : list directive) (s : string) :
  directive_branches d = [b] ->
  strp_match (d :: fmt) s =
    match match_branch b s with
    | Some (m, r) =>
        match strp_match fmt r with
        | Some (fs, r') => Some ((d, m) :: fs, r')
        | None => None
        end
    | None => None
    end.
Proof.
  intros H. cbn [strp_match]. rewrite H. cbn [map first_some].
  destruct (match_branch b s) as [[m r]|]; [|reflexivity].
  destruct (strp_match fmt r) as [[fs r']|]; reflexivity.
Qed.

Lemma strptime_ymd_date_chars (g : string) :
  all_chars date_char g = true -> strptime FMT_Ymd g = None.
Proof.
  intros Hg. unfold strptime, FMT_Ymd.
  rewrite (strp_match_single DY _ _ _ eq_refl).
  destruct (match_branch [is_digit; is_digit; is_digit; is_digit] g) as [[m r]|] eqn:E;
    [|reflexivity].
  apply match_branch_app in E. subst g.
  rewrite all_chars_app in Hg. apply andb_prop in Hg as [_ Hr].
  rewrite (strp_match_single (DLit "-") _ _ _ eq_refl).
  destruct r as [|c r]; [reflexivity|].
  cbn [all_chars] in Hr. apply andb_prop in Hr as [Hc _].
  cbn [match_branch]. rewrite (dash_not_date_char c Hc). reflexivity.
Qed.

(** A token captured by [DATE_PAT] holds only digits and slashes, so the
    third format of [parse_date], ["%Y-%m-%d"], never matches it: only
    ["%m/%d/%y"] and ["%m/%d/%Y"] can date a card. *)
Theorem date_token_never_iso (s g : string) (H : re_search DATE_PAT s = Some g) :
  all_chars date_char g = true /\ strptime FMT_Ymd g = None /\
  parse_date g = first_some [strptime FMT_mdy g; strptime FMT_mdY g].
Proof.
  pose proof (date_pat_group_chars s g H) as Hg.
  pose proof (strptime_ymd_date_chars g Hg) as Hiso.
  split; [exact Hg|]. split; [exact Hiso|].
  unfold parse_date. cbn [first_some]. rewrite Hiso.
  destruct (strptime FMT_mdy g), (strptime FMT_mdY g); reflexivity.
Qed.

Lemma date_token_never_iso_witness :
  re_search DATE_PAT "Received: 01/02/23" = Some "01/02/23" /\
  (all_chars date_char "01/02/23" = true /\ strptime FMT_Ymd "01/02/23" = None /\
   parse_date "01/02/23" = first_some [strptime FMT_mdy "01/02/23"; strptime FMT_mdY "01/02/23"]).
Proof.
  split; [vm_compute; reflexivity|].
  apply (date_token_never_iso "Received: 01/02/23" "01/02/23"). vm_compute. reflexivity.
Defined.

(** The table of [parse_date] on every "MM/DD/YY" token with months 00..12
    and days 00..31, computed once. *)
Lemma mdy_table :
  forallb (fun m => forallb (fun d => forallb (fun y =>
    opt_date_eqb (parse_date (mdy_token m d y)) (mdy_expected m d y))
      (seq 0 100)) (seq 0 32)) (seq 0 13) = true.
Proof. vm_compute. reflexivity. Qed.

Lemma opt_date_eqb_eq (a b : option date) : opt_date_eqb a b = true -> a = b.
Proof.
  destruct a as [[ya ma da]|], b as [[yb mb db]|]; cbn; try discriminate; [|reflexivity].
  unfold date_eqb; cbn. intros H. apply andb_prop in H as [H H3]. apply andb_prop in H as [H1 H2].
  apply Z.eqb_eq in H1, H2, H3. subst. reflexivity.
Qed.

Lemma forallb_seq (f : nat -> bool) (a n k : nat) :
  forallb f (seq a n) = true -> a <= k < a + n -> f k = true.
Proof. rewrite forallb_forall. intros H Hk. apply H. apply in_seq. exact Hk. Qed.

(** On a zero-padded "MM/DD/YY" token, [parse_date] returns the date
    with year [20YY] for [YY] up to 68 and [19YY] above, and [None] when
    that date does not exist (month or day 00, day past the month's end,
    February 29 outside a leap year). *)
Theorem parse_date_mmddyy (m d y : nat) (Hm : m <= 12) (Hd : d <= 31) (Hy : y <= 99) :
  parse_date (mdy_token m d y) = mdy_expected m d y.
Proof.
  apply opt_date_eqb_eq.
  pose proof (forallb_seq _ 0 13 m mdy_table ltac:(lia)) as H1. cbv beta in H1.
  pose proof (forallb_seq _ 0 32 d H1 ltac:(lia)) as H2. cbv beta in H2.
  exact (forallb_seq _ 0 100 y H2 ltac:(lia)).
Qed.

Lemma parse_date_mmddyy_witness :
  (2 <= 12 /\ 29 <= 31 /\ 23 <= 99) /\
  parse_date (mdy_token 2 29 23) = mdy_expected 2 29 23.
Proof.
  split; [lia|]. apply (parse_date_mmddyy 2 29 23); lia.
Defined.

(** ** What the extractor returns *)

Lemma strptime_valid (fmt : list directive) (s : string) (d : date) :
  strptime fmt s = Some d -> date_valid d = true.
Proof.
  unfold strptime. destruct (strp_match fmt s) as [[fs [|c r]]|]; try discriminate.
  destruct (date_valid _) eqn:E; intros H; [injection H as <-; exact E|discriminate].
Qed.

Lemma parse_date_valid (s : string) (d : date) :
  parse_date s = Some d -> date_valid d = true.
Proof.
  unfold parse_date. cbn [first_some].
  destruct (strptime FMT_mdy s) eqn:E1; [intros H; injection H as <-; exact (strptime_valid _ _ _ E1)|].
  destruct (strptime FMT_mdY s) eqn:E2; [intros H; injection H as <-; exact (strptime_valid _ _ _ E2)|].
  destruct (strptime FMT_Ymd s) eqn:E3; [intros H; injection H as <-; exact (strptime_valid _ _ _ E3)|].
  discriminate.
Qed.

Lemma re_search_date_empty : re_search DATE_PAT "" = None.
Proof. vm_compute. reflexivity. Qed.

Lemma card_step_some_facts (col : string) (today : date) (n : node) (c : card) :
  card_step col today n = Ok (Some c) ->
  column c = col /\ text c = get_text n /\ text c <> "" /\
  (exists g, re_search DATE_PAT (text c) = Some g /\ parse_date g = Some (card_date c)) /\
  date_valid (card_date c) = true /\
  age c = days_between today (card_date c) /\
  (price c = None <-> re_search PRICE_PAT (text c) = None).
Proof.
  unfold card_step. cbv zeta.
  destruct (String.eqb (get_text n) "") eqn:E0; [discriminate|].
  destruct (re_search DATE_PAT (get_text n)) as [g|] eqn:E1; [|discriminate].
  destruct (parse_date g) as [d|] eqn:E2; [|discriminate].
  destruct (re_search PRICE_PAT (get_text n)) as [pg|] eqn:E3.
  - unfold res_bind. destruct (py_int (remove_commas pg)) as [p|e]; [|discriminate].
    intros H; injection H as <-. cbn [column text card_date age price].
    repeat split; try reflexivity.
    + apply String.eqb_neq. exact E0.
    + exists g. split; assumption.
    + exact (parse_date_valid _ _ E2).
    + discriminate.
    + rewrite E3. discriminate.
  - intros H; injection H as <-. cbn [column text card_date age price].
    repeat split; try reflexivity.
    + apply String.eqb_neq. exact E0.
    + exists g. split; assumption.
    + exact (parse_date_valid _ _ E2).
    + intros _. exact E3.
Qed.

Lemma cards_loop_in (col : string) (today : date) (ns : list node) (cs : list card) :
  cards_loop col today ns = Ok cs ->
  forall c, In c cs -> exists n, In n ns /\ card_step col today n = Ok (Some c).
Proof.
  revert cs. induction ns as [|n ns IH]; intros cs H c Hc.
  - injection H as <-. destruct Hc.
  - cbn [cards_loop] in H. unfold res_bind at 1 in H.
    destruct (card_step col today n) as [o|e] eqn:E; [|discriminate].
    unfold res_bind in H. destruct (cards_loop col today ns) as [rest|e] eqn:E'; [|discriminate].
    injection H as <-. apply in_app_or in Hc as [Hc|Hc].
    + destruct o as [c'|]; [|destruct Hc]. destruct Hc as [<-|[]].
      exists n. split; [left; reflexivity|exact E].
    + destruct (IH rest eq_refl c Hc) as [n' [Hin Hs]]. exists n'. split; [right; exact Hin|exact Hs].
Qed.

Lemma outers_loop_in (today : date) (os : list node) (cs : list card) :
  outers_loop today os = Ok cs ->
  forall c, In c cs -> exists outer header n,
    In outer os /\ find_div_class is_header_name outer = Some header /\
    In n (card_candidates outer) /\ card_step (get_text header) today n = Ok (Some c).
Proof.
  revert cs. induction os as [|o os IH]; intros cs H c Hc.
  - injection H as <-. destruct Hc.
  - cbn [outers_loop] in H. unfold res_bind at 1 in H.
    destruct (column_step today o) as [cs1|e] eqn:E; [|discriminate].
    unfold res_bind in H. destruct (outers_loop today os) as [rest|e] eqn:E'; [|discriminate].
    injection H as <-. apply in_app_or in Hc as [Hc|Hc].
    + unfold column_step in E. destruct (find_div_class is_header_name o) as [hd|] eqn:Eh.
      * destruct (cards_loop_in _ _ _ _ E c Hc) as [n [Hn Hs]].
        exists o, hd, n. repeat split; try assumption. left; reflexivity.
      * injection E as <-. destruct Hc.
    + destruct (IH rest eq_refl c Hc) as [o' [h [n [Ho [Hh [Hn Hs]]]]]].
      exists o', h, n. repeat split; try assumption. right; exact Ho.
Qed.

(** Every card [card_step] returns carries the column it was given and
    the card's non-empty text, a [DATE_PAT] token of that text that
    [parse_date] reads as its (valid) date, its age in days from [today],
    and a price exactly when [PRICE_PAT] finds one. *)
Theorem card_step_output (col : string) (today : date) (n : node) (c : card)
    (H : card_step col today n = Ok (Some c)) :
  column c = col /\ text c = get_text n /\ text c <> "" /\
  (exists g, re_search DATE_PAT (text c) = Some g /\ parse_date g = Some (card_date c)) /\
  date_valid (card_date c) = true /\
  age c = days_between today (card_date c) /\
  (price c = None <-> re_search PRICE_PAT (text c) = None).
Proof. exact (card_step_some_facts col today n c H). Qed.

Lemma card_step_output_witness :
  card_step "Scheduled" (mkdate 2023 1 12)
    (Elem "div" ["card"] [Txt "Received: 01/02/23 Quoted Price $1,200"]) =
    Ok (Some (mkcard "Scheduled" "Received: 01/02/23 Quoted Price $1,200"
                (mkdate 2023 1 2) 10 (Some 1200%Z))) /\
  (let c := mkcard "Scheduled" "Received: 01/02/23 Quoted Price $1,200"
              (mkdate 2023 1 2) 10 (Some 1200%Z) in
   let n := Elem "div" ["card"] [Txt "Received: 01/02/23 Quoted Price $1,200"] in
   column c = "Scheduled" /\ text c = get_text n /\ text c <> "" /\
   (exists g, re_search DATE_PAT (text c) = Some g /\ parse_date g = Some (card_date c)) /\
   date_valid (card_date c) = true /\
   age c = days_between (mkdate 2023 1 12) (card_date c) /\
   (price c = None <-> re_search PRICE_PAT (text c) = None)).
Proof.
  split; [vm_compute; reflexivity|].
  apply (card_step_output "Scheduled" (mkdate 2023 1 12)
           (Elem "div" ["card"] [Txt "Received: 01/02/23 Quoted Price $1,200"])).
  vm_compute. reflexivity.
Defined.

(** Each card [extract_cards] returns comes from a card candidate of a
    column container ([_outerWrapper_] class) that has a header
    ([_headerName_] class): its column is the header's text, its text the
    candidate's, and it carries a [DATE_PAT] token that [parse_date] reads
    as its valid date and its age from [today]. *)
Theorem extracted_card_provenance (soup : node) (today : date) (cards : list card) (c : card)
    (H : extract_from_soup soup today = Ok cards) (Hc : In c cards) :
  exists outer header n,
    In outer (find_all_div_class is_outer_wrapper soup) /\
    find_div_class is_header_name outer = Some header /\
    In n (card_candidates outer) /\
    column c = get_text header /\ text c = get_text n /\
    (exists g, re_search DATE_PAT (text c) = Some g /\ parse_date g = Some (card_date c)) /\
    date_valid (card_date c) = true /\
    age c = days_between today (card_date c).
Proof.
  destruct (outers_loop_in today _ cards H c Hc) as [outer [header [n [Ho [Hh [Hn Hs]]]]]].
  destruct (card_step_some_facts _ _ _ _ Hs) as [Hcol [Htext [_ [Hg [Hv [Hage _]]]]]].
  exists outer, header, n. repeat split; assumption.
Qed.

Lemma extracted_card_provenance_witness :
  let c := mkcard "Scheduled" "Received: 01/02/23 Quoted Price $1,200"
             (mkdate 2023 1 2) 10 (Some 1200%Z) in
  (extract_from_soup soup_one_card (mkdate 2023 1 12) = Ok [c] /\ In c [c]) /\
  exists outer header n,
    In outer (find_all_div_class is_outer_wrapper soup_one_card) /\
    find_div_class is_header_name outer = Some header /\
    In n (card_candidates outer) /\
    column c = get_text header /\ text c = get_text n /\
    (exists g, re_search DATE_PAT (text c) = Some g /\ parse_date g = Some (card_date c)) /\
    date_valid (card_date c) = true /\
    age c = days_between (mkdate 2023 1 12) (card_date c).
Proof.
  intros c. split; [split; [vm_compute; reflexivity|left; reflexivity]|].
  apply (extracted_card_provenance soup_one_card (mkdate 2023 1 12) [c] c);
    [vm_compute; reflexivity|left; reflexivity].
Defined.

(** ** When the extractor raises *)

Lemma py_int_digits_raise (d : string) :
  all_chars is_digit d = true ->
  (py_int d = Raise ValueError <-> d = "" \/ INT_MAX_STR_DIGITS < String.length d).
Proof.
  intros Hd. destruct (String.string_dec d "") as [->|Hne].
  { split; [left; reflexivity|reflexivity]. }
  rewrite (py_int_all_digits d Hd Hne).
  destruct (Nat.leb_spec (String.length d) INT_MAX_STR_DIGITS) as [Hl|Hl].
  - split; [discriminate|]. intros [E|E]; [congruence|lia].
  - split; [intros _; right; exact Hl|reflexivity].
Qed.

Lemma py_int_exn (s : string) (e : py_exn) : py_int s = Raise e -> e = ValueError.
Proof.
  unfold py_int. destruct (strip s) as [|c b]; cbn zeta.
  - destruct (int_body_ok true ""); [destruct (Nat.leb _ _)|]; congruence.
  - destruct (Ascii.eqb c "-"); [|destruct (Ascii.eqb c "+")];
      (destruct (int_body_ok true _); [destruct (Nat.leb _ _)|]); congruence.
Qed.

Lemma card_step_exn (col : string) (today : date) (n : node) (e : py_exn) :
  card_step col today n = Raise e -> e = ValueError.
Proof.
  unfold card_step. cbv zeta.
  destruct (String.eqb (get_text n) ""); [discriminate|].
  destruct (re_search DATE_PAT (get_text n)) as [g|]; [|discriminate].
  destruct (parse_date g) as [d|]; [|discriminate].
  destruct (re_search PRICE_PAT (get_text n)) as [pg|]; [|discriminate].
  unfold res_bind. destruct (py_int (remove_commas pg)) as [p|e'] eqn:E; [discriminate|].
  intros H; injection H as <-. exact (py_int_exn _ _ E).
Qed.

Lemma card_step_raise_char (col : string) (today : date) (n : node) :
  card_step col today n = Raise ValueError <->
  exists g d pg, re_search DATE_PAT (get_text n) = Some g /\ parse_date g = Some d /\
    re_search PRICE_PAT (get_text n) = Some pg /\
    (remove_commas pg = "" \/ INT_MAX_STR_DIGITS < String.length (remove_commas pg)).
Proof.
  unfold card_step. cbv zeta. split.
  - destruct (String.eqb (get_text n) "") eqn:E0; [discriminate|].
    destruct (re_search DATE_PAT (get_text n)) as [g|] eqn:E1; [|discriminate].
    destruct (parse_date g) as [d|] eqn:E2; [|discriminate].
    destruct (re_search PRICE_PAT (get_text n)) as [pg|] eqn:E3; [|discriminate].
    unfold res_bind. destruct (py_int (remove_commas pg)) as [p|e] eqn:E4; [discriminate|].
    intros H; injection H as ->. exists g, d, pg. repeat split; try assumption.
    destruct (price_group_chars _ _ E3) as [Hpc _].
    exact (proj1 (py_int_digits_raise _ (remove_commas_digits _ Hpc)) E4).
  - intros [g [d [pg [E1 [E2 [E3 E4]]]]]].
    destruct (String.eqb_spec (get_text n) "") as [E0|_].
    { rewrite E0, re_search_date_empty in E1. discriminate. }
    rewrite E1, E2, E3.
    destruct (price_group_chars _ _ E3) as [Hpc _].
    rewrite (proj2 (py_int_digits_raise _ (remove_commas_digits _ Hpc)) E4). reflexivity.
Qed.

Lemma cards_loop_exn (col : string) (today : date) (ns : list node) (e : py_exn) :
  cards_loop col today ns = Raise e -> e = ValueError.
Proof.
  induction ns as [|n ns IH]; cbn [cards_loop]; [discriminate|].
  unfold res_bind at 1. destruct (card_step col today n) as [o|e'] eqn:E.
  - unfold res_bind. destruct (cards_loop col today ns) as [rest|e']; [discriminate|].
    intros H; injection H as <-. exact (IH eq_refl).
  - intros H; injection H as <-. exact (card_step_exn _ _ _ _ E).
Qed.

Lemma column_step_exn (today : date) (o : node) (e : py_exn) :
  column_step today o = Raise e -> e = ValueError.
Proof.
  unfold column_step. destruct (find_div_class is_header_name o); [|discriminate].
  apply cards_loop_exn.
Qed.

Lemma outers_loop_exn (today : date) (os : list node) (e : py_exn) :
  outers_loop today os = Raise e -> e = ValueError.
Proof.
  induction os as [|o os IH]; cbn [outers_loop]; [discriminate|].
  unfold res_bind at 1. destruct (column_step today o) as [cs|e'] eqn:E.
  - unfold res_bind. destruct (outers_loop today os) as [rest|e']; [discriminate|].
    intros H; injection H as <-. exact (IH eq_refl).
  - intros H; injection H as <-. exact (column_step_exn _ _ _ E).
Qed.

Lemma cards_loop_raise_iff (col : string) (today : date) (ns : list node) :
  cards_loop col today ns = Raise ValueError <->
  exists n, In n ns /\ card_step col today n = Raise ValueError.
Proof.
  induction ns as [|n ns IH].
  - split; [discriminate|]. intros [n [[] _]].
  - cbn [cards_loop]. unfold res_bind at 1.
    destruct (card_step col today n) as [o|e] eqn:E;
      [|pose proof (card_step_exn _ _ _ _ E); subst e].
    + unfold res_bind. destruct (cards_loop col today ns) as [rest|e] eqn:E';
        [|pose proof (cards_loop_exn _ _ _ _ E'); subst e].
      * split; [discriminate|]. intros [n' [[<-|Hin] Hs]]; [congruence|].
        discriminate (proj2 IH (ex_intro _ n' (conj Hin Hs))).
      * split; [|reflexivity]. intros _. destruct (proj1 IH eq_refl) as [n' [Hin Hs]].
        exists n'. split; [right; exact Hin|exact Hs].
    + split; [|reflexivity]. intros _. exists n. split; [left; reflexivity|exact E].
Qed.

Lemma outers_loop_raise_iff (today : date) (os : list node) :
  outers_loop today os = Raise ValueError <->
  exists outer header n, In outer os /\ find_div_class is_header_name outer = Some header /\
    In n (card_candidates outer) /\ card_step (get_text header) today n = Raise ValueError.
Proof.
  assert (Hcol : forall o, column_step today o = Raise ValueError <->
            exists header n, find_div_class is_header_name o = Some header /\
              In n (card_candidates o) /\ card_step (get_text header) today n = Raise ValueError).
  { intros o. unfold column_step. destruct (find_div_class is_header_name o) as [h|].
    - rewrite cards_loop_raise_iff. split.
      + intros [n Hn]. exists h, n. tauto.
      + intros [h' [n [Eh Hn]]]. injection Eh as <-. exists n. exact Hn.
    - split; [discriminate|]. intros [h [n [Eh _]]]. discriminate Eh. }
  induction os as [|o os IH].
  - split; [discriminate|]. intros [o [h [n [[] _]]]].
  - cbn [outers_loop]. unfold res_bind at 1.
    destruct (column_step today o) as [cs|e] eqn:E;
      [|pose proof (column_step_exn _ _ _ E); subst e].
    + unfold res_bind. destruct (outers_loop today os) as [rest|e] eqn:E';
        [|pose proof (outers_loop_exn _ _ _ E'); subst e].
      * split; [discriminate|]. intros [o' [h [n [[<-|Hin] Hs]]]].
        -- assert (Hr : column_step today o = Raise ValueError) by (apply Hcol; exists h, n; tauto).
           congruence.
        -- assert (Hr : Ok rest = Raise ValueError) by (apply IH; exists o', h, n; tauto).
           discriminate Hr.
      * split; [|reflexivity]. intros _. destruct (proj1 IH eq_refl) as [o' [h [n H]]].
        exists o', h, n. split; [right|]; tauto.
    + split; [|reflexivity]. intros _. destruct (proj1 (Hcol o) E) as [h [n H]].
      exists o, h, n. split; [left; reflexivity|exact H].
Qed.

(** [card_step] raises ([ValueError] from [int]) exactly when the card's
    text has a [DATE_PAT] token [parse_date] accepts and [PRICE_PAT]'s
    group, its commas removed, is empty or longer than the
    [INT_MAX_STR_DIGITS] digits [int] reads; it raises nothing else. *)
Theorem card_step_raises_iff (col : string) (today : date) (n : node) :
  (card_step col today n = Raise ValueError <->
   exists g d pg, re_search DATE_PAT (get_text n) = Some g /\ parse_date g = Some d /\
     re_search PRICE_PAT (get_text n) = Some pg /\
     (remove_commas pg = "" \/ INT_MAX_STR_DIGITS < String.length (remove_commas pg))) /\
  (forall e, card_step col today n = Raise e -> e = ValueError).
Proof. split; [exact (card_step_raise_char col today n)|exact (card_step_exn col today n)]. Qed.

(** Extraction from the parsed document raises exactly when some card
    candidate of some column container with a header has a dated text
    whose [PRICE_PAT] group, its commas removed, is empty or has more than
    [INT_MAX_STR_DIGITS] digits; nothing in [extract_cards] catches it,
    and it raises nothing but this [ValueError]. *)
Theorem extract_raises_iff (soup : node) (today : date) :
  (extract_from_soup soup today = Raise ValueError <->
   exists outer header n g d pg,
     In outer (find_all_div_class is_outer_wrapper soup) /\
     find_div_class is_header_name outer = Some header /\
     In n (card_candidates outer) /\
     re_search DATE_PAT (get_text n) = Some g /\ parse_date g = Some d /\
     re_search PRICE_PAT (get_text n) = Some pg /\
     (remove_commas pg = "" \/ INT_MAX_STR_DIGITS < String.length (remove_commas pg))) /\
  (forall e, extract_from_soup soup today = Raise e -> e = ValueError).
Proof.
  split; [|apply outers_loop_exn].
  unfold extract_from_soup. rewrite outers_loop_raise_iff. split.
  - intros [outer [header [n [Ho [Hh [Hn Hs]]]]]].
    apply card_step_raise_char in Hs as [g [d [pg H]]].
    exists outer, header, n, g, d, pg. tauto.
  - intros [outer [header [n [g [d [pg [Ho [Hh [Hn H]]]]]]]]].
    exists outer, header, n. split; [exact Ho|]. split; [exact Hh|]. split; [exact Hn|].
    apply card_step_raise_char. exists g, d, pg. exact H.
Qed.

(** ** Properties of the report tables *)

Lemma flat_map_cons {A B : Type} (f : A -> list B) (x : A) (l : list A) :
  flat_map f (x :: l) = (f x ++ flat_map f l)%list.
Proof. reflexivity. Qed.

Lemma length_filter_orb {A : Type} (p q : A -> bool) (l : list A) :
  (forall x, p x && q x = false) ->
  length (filter (fun x => p x || q x) l) = length (filter p l) + length (filter q l).
Proof.
  intros Hd. induction l as [|x l IH]; [reflexivity|]. cbn [filter].
  specialize (Hd x). destruct (p x), (q x); cbn [orb length] in *; try discriminate; lia.
Qed.

Lemma lane_rows_sum (round_mean2 : Q -> Q) (cards : list card) (L : list string) :
  NoDup L ->
  list_sum (map lr_count
    (flat_map (fun lane =>
                let ages := map age (filter (fun c => String.eqb (column c) lane) cards) in
                match ages with
                | [] => []
                | _ => [mklane lane (List.length ages) (avg round_mean2 ages)]
                end) L)) =
  length (filter (fun c => mem (column c) L) cards).
Proof.
  induction L as [|l L IH]; intros Hnd.
  - cbn. induction cards; [reflexivity|exact IHcards].
  - inversion Hnd as [|? ? Hl Hnd']; subst.
    rewrite flat_map_cons, map_app, list_sum_app, (IH Hnd').
    assert (E : length (filter (fun c => mem (column c) (l :: L)) cards) =
                length (filter (fun c => String.eqb (column c) l) cards) +
                length (filter (fun c => mem (column c) L) cards)).
    { rewrite <- length_filter_orb; try reflexivity.
      intros c. destruct (String.eqb_spec (column c) l) as [->|_]; [|reflexivity].
        unfold mem. cbn [andb]. destruct (existsb (String.eqb l) L) eqn:Ex; [|reflexivity].
        apply existsb_exists in Ex as [x [Hx Ex]]. apply String.eqb_eq in Ex. subst x. contradiction. }
    rewrite E. f_equal.
    destruct (filter (fun c => String.eqb (column c) l) cards) as [|c cs]; cbn; rewrite ?length_map; lia.
Qed.

Lemma requested_lanes_nodup : NoDup REQUESTED_LANES.
Proof. unfold REQUESTED_LANES. repeat constructor; cbn; intuition discriminate. Qed.

(** Each Lane row counts the cards whose column is exactly its lane; the
    rows follow [REQUESTED_LANES] and keep the lanes some card sits in;
    since the lanes are distinct, the counts add up to the number of cards
    in a requested lane. *)
Theorem lane_counts_partition (round_mean2 : Q -> Q) (cards : list card) :
  let R := build_report round_mean2 cards in
  (forall r, In r (lane_rows R) ->
     lr_count r = length (filter (fun c => String.eqb (column c) (lr_lane r)) cards)) /\
  map lr_lane (lane_rows R) =
    filter (fun lane => existsb (fun c => String.eqb (column c) lane) cards) REQUESTED_LANES /\
  list_sum (map lr_count (lane_rows R)) =
    length (filter (fun c => mem (column c) REQUESTED_LANES) cards).
Proof.
  intros R. split; [|split].
  - intros r. subst R. cbn [build_report lane_rows]. intros Hin.
    apply in_flat_map in Hin as [lane [_ Hr]].
    destruct (map age (filter (fun c => String.eqb (column c) lane) cards)) as [|a ages] eqn:E;
      [contradiction|].
    destruct Hr as [<-|[]]. cbn [lr_lane lr_count]. rewrite <- E, length_map. reflexivity.
  - subst R. cbn [build_report lane_rows]. generalize REQUESTED_LANES. intros L.
    induction L as [|l L IH]; [reflexivity|].
    rewrite flat_map_cons, map_app, IH. cbn [filter].
    destruct (existsb (fun c => String.eqb (column c) l) cards) eqn:Ex.
    + apply existsb_exists in Ex as [c [Hc Ec]].
      destruct (filter (fun c => String.eqb (column c) l) cards) as [|c' cs] eqn:F.
      * assert (Hf : In c (filter (fun c => String.eqb (column c) l) cards))
          by (apply filter_In; split; assumption).
        rewrite F in Hf. destruct Hf.
      * reflexivity.
    + destruct (filter (fun c => String.eqb (column c) l) cards) as [|c cs] eqn:F; [reflexivity|].
      assert (Hc : In c (filter (fun c => String.eqb (column c) l) cards)) by (rewrite F; left; reflexivity).
      apply filter_In in Hc as [Hc Ec].
      assert (Hex : existsb (fun c => String.eqb (column c) l) cards = true)
        by (apply existsb_exists; exists c; split; assumption).
      congruence.
  - subst R. cbn [build_report lane_rows]. exact (lane_rows_sum round_mean2 cards _ requested_lanes_nodup).
Qed.

Lemma label_row_facts (round_mean2 : Q -> Q) (cards : list card) (lbl : string) :
  let ages := map age (filter (has_label lbl) (filter is_active cards)) in
  List.length ages = length (filter (has_label lbl) (filter is_active cards)) /\
  List.length ages <= length (filter is_active cards) /\
  (List.length ages = 0 -> avg_or_0 round_mean2 ages = 0%Q).
Proof.
  intros ages. subst ages. rewrite length_map. split; [reflexivity|]. split.
  - apply filter_length_le.
  - destruct (filter (has_label lbl) (filter is_active cards)); [reflexivity|discriminate].
Qed.

(** A label row (Scope after row 0, or All Labels) counts the active cards
    whose lower-cased text contains the lower-cased label, so never more
    than row 0; its average is 0 when it counts none; and a focused label,
    all of which are in [ALL_LABELS], gets the same count and average in
    both tables. *)
Theorem label_counts_bounded (round_mean2 : Q -> Q) (cards : list card) :
  let R := build_report round_mean2 cards in
  let active := filter is_active cards in
  (forall r, In r (tl (scope_rows R)) ->
     sr_count r = length (filter (has_label (sr_scope r)) active) /\
     sr_count r <= length active /\ (sr_count r = 0 -> sr_avg r = 0%Q)) /\
  (forall r, In r (all_label_rows R) ->
     lb_count r = length (filter (has_label (lb_label r)) active) /\
     lb_count r <= length active /\ (lb_count r = 0 -> lb_avg r = 0%Q)) /\
  (forall lbl, In lbl FOCUSED_LABELS ->
     exists sr lr, In sr (scope_rows R) /\ In lr (all_label_rows R) /\
       sr_scope sr = lbl /\ lb_label lr = lbl /\
       sr_count sr = lb_count lr /\ sr_avg sr = lb_avg lr).
Proof.
  intros R active. subst R active. split; [|split].
  - cbn [build_report scope_rows tl]. intros r Hr. apply in_map_iff in Hr as [lbl [<- _]].
    cbn [sr_scope sr_count sr_avg]. apply label_row_facts.
  - cbn [build_report all_label_rows]. unfold ALL_LABELS at 1. intros r Hr.
    apply in_map_iff in Hr as [lbl [<- _]].
    cbn [lb_label lb_count lb_avg]. apply label_row_facts.
  - intros lbl Hl.
    exists (mkscope lbl (length (map age (filter (has_label lbl) (filter is_active cards))))
                   (avg_or_0 round_mean2 (map age (filter (has_label lbl) (filter is_active cards))))),
           (mklabel lbl (length (map age (filter (has_label lbl) (filter is_active cards))))
                   (avg_or_0 round_mean2 (map age (filter (has_label lbl) (filter is_active cards))))).
    cbn [sr_scope sr_count sr_avg lb_label lb_count lb_avg].
    split; [|split; [|repeat split]].
    + cbn [build_report scope_rows]. right.
      apply in_map_iff. exists lbl. split; [reflexivity|exact Hl].
    + cbn [build_report all_label_rows]. unfold ALL_LABELS at 1.
      assert (Hin : In lbl ALL_LABELS)
        by (unfold FOCUSED_LABELS in Hl; unfold ALL_LABELS; cbn in Hl |- *; intuition).
      apply in_map_iff. exists lbl. split; [reflexivity|exact Hin].
Qed.







Lemma prices_where_length (keep : card -> bool) (cs : list card) :
  List.length (prices_where keep cs) = length (filter (fun c => keep c && is_priced c) cs).
Proof.
  induction cs as [|c cs IH]; [reflexivity|].
  unfold prices_where in *. cbn [flat_map filter]. rewrite length_app, IH.
  unfold is_priced. destruct (keep c), (price c); reflexivity.
Qed.

(** Each priced card is counted in at most one price population: the
    active, won and lost counts plus the priced cards of column "New Parts
    Request" (excluded from all three) make up all priced cards. *)
Theorem quoted_counts_partition (round_mean2 : Q -> Q) (cards : list card) :
  exists q, quoted_stats (build_report round_mean2 cards) = [q] /\
    total_value_count q + total_won_count q + total_lost_count q +
      length (filter (fun c => String.eqb (column c) "New Parts Request" && is_priced c) cards) =
    length (filter is_priced cards).
Proof.
  eexists; split; [reflexivity|].
  cbn [total_value_count total_won_count total_lost_count].
  rewrite prices_where_filter, !prices_where_length.
  induction cards as [|c cs IH]; [reflexivity|]. cbn [filter].
  unfold is_active, is_won, is_lost, mem, EXCLUDED_COLUMNS_FOR_AGE. cbn [existsb].
  unfold is_active, is_won, is_lost, mem, EXCLUDED_COLUMNS_FOR_AGE in IH. cbn [existsb] in IH.
  destruct (is_priced c); rewrite ?andb_true_r, ?andb_false_r; cbn [length negb orb];
  destruct (String.eqb_spec (column c) "Completed") as [E1|E1];
  destruct (String.eqb_spec (column c) "Canceled") as [E2|E2];
  destruct (String.eqb_spec (column c) "New Parts Request") as [E3|E3];
  try congruence; cbn [negb orb length]; lia.
Qed.

(** ** The web layer *)

Section ServerProofs.
Variable html_parser : list Byte.byte -> res node.
Variable round_mean2 : Q -> Q.











End ServerProofs.

Lemma quoted_stats_single (round_mean2 : Q -> Q) (cards : list card) :
  exists q, quoted_stats (build_report round_mean2 cards) = [q].
Proof. eexists. reflexivity. Qed.

Lemma all_label_rows_cons (round_mean2 : Q -> Q) (cards : list card) :
  exists r rs, all_label_rows (build_report round_mean2 cards) = r :: rs /\
    map lb_label (r :: rs) = ALL_LABELS.
Proof. do 2 eexists. split; reflexivity. Qed.


(** A result page comes with the workbook [_last_workbook] now holds, in
    a fresh open buffer: the sheets Scope, Lane, Quoted Prices and All
    Labels in this order, the first three holding the page's tables
    ([summary["quoted"]] being the only Quoted Prices row), the last one
    row per entry of [ALL_LABELS]. *)
Theorem result_page_matches_workbook
    (html_parser : list Byte.byte -> res node) (round_mean2 : Q -> Q)
    (st : option buffer) (file : option upload) (now : instant)
    (st' : option buffer) (sm : summary)
    (H : handle html_parser round_mean2 st (PostAnalyze file now) = (st', PageResp (ResultPage sm))) :
  exists rows,
    st' = Some (mkbuffer
                  [("Scope", SheetScope (sm_scope sm)); ("Lane", SheetLane (sm_lanes sm));
                   ("Quoted Prices", SheetQuoted [sm_quoted sm]); ("All Labels", SheetLabels rows)]
                  false) /\
    map lb_label rows = ALL_LABELS.
Proof.
  cbn [handle] in H.
  destruct (upload_truthy file) as [u|]; [|discriminate].
  destruct (extract_cards html_parser (file_bytes u) now) as [cards|e]; [|discriminate].
  unfold build_report_outputs in H.
  destruct (report_overflows cards); [discriminate|].
  destruct (quoted_stats_single round_mean2 cards) as [q Hq].
  destruct (all_label_rows_cons round_mean2 cards) as [r [rs [Hl Hm]]].
  rewrite Hq in H. injection H as <- <-.
  exists (r :: rs). split; [|exact Hm].
  unfold write_workbook. rewrite Hq, Hl. reflexivity.
Qed.

Lemma result_page_matches_workbook_witness :
  exists st' sm,
    handle (fun _ => Ok soup_one_card) (fun q => q) None
      (PostAnalyze (Some (mkupload "board.html" [])) (mkinstant (mkdate 2023 1 12) 0)) =
      (st', PageResp (ResultPage sm)) /\
    exists rows,
      st' = Some (mkbuffer
                    [("Scope", SheetScope (sm_scope sm)); ("Lane", SheetLane (sm_lanes sm));
                     ("Quoted Prices", SheetQuoted [sm_quoted sm]); ("All Labels", SheetLabels rows)]
                    false) /\
      map lb_label rows = ALL_LABELS.
Proof.
  do 2 eexists. split; [vm_compute; reflexivity|].
  apply (result_page_matches_workbook (fun _ => Ok soup_one_card) (fun q => q) None
           (Some (mkupload "board.html" [])) (mkinstant (mkdate 2023 1 12) 0)).
  vm_compute. reflexivity.
Defined.



(** ** A price out of [float] range *)

Lemma float_bound_pos : (0 < FLOAT_OVERFLOW_BOUND)%Z.
Proof. vm_compute. reflexivity. Qed.

Lemma in_prices_where (keep : card -> bool) (cs : list card) (c : card) (p : Z) :
  In c cs -> keep c = true -> price c = Some p -> In p (prices_where keep cs).
Proof.
  intros Hin Hk Hp. unfold prices_where. apply in_flat_map.
  exists c. split; [exact Hin|]. rewrite Hk, Hp. left. reflexivity.
Qed.

Lemma prices_where_nonneg (keep : card -> bool) (cs : list card) :
  (forall c q, In c cs -> price c = Some q -> (0 <= q)%Z) ->
  Forall (fun q => (0 <= q)%Z) (prices_where keep cs).
Proof.
  intros H. apply Forall_forall. intros q Hq. unfold prices_where in Hq.
  apply in_flat_map in Hq as [c [Hc Hq]].
  destruct (keep c); [|destruct Hq].
  destruct (price c) as [q'|] eqn:E; [|destruct Hq].
  destruct Hq as [<-|[]]. exact (H c q' Hc E).
Qed.

Lemma sum_or_0_ge (xs : list Z) (p : Z) :
  Forall (fun q => (0 <= q)%Z) xs -> In p xs -> (p <= sum_or_0 xs)%Z.
Proof.
  intros Hn Hin. rewrite sum_or_0_sum. induction xs as [|x xs IH]; [destruct Hin|].
  inversion Hn as [|? ? Hx Hxs]; subst. cbn [sum_Z fold_right].
  assert (Hs : (0 <= sum_Z xs)%Z).
  { clear - Hxs. induction xs as [|y ys IHy]; cbn [sum_Z fold_right]; [lia|].
    inversion Hxs; subst. specialize (IHy ltac:(assumption)). unfold sum_Z in IHy. lia. }
  destruct Hin as [<-|Hin]; [unfold sum_Z in Hs; lia|].
  specialize (IH Hxs Hin). unfold sum_Z in IH. lia.
Qed.

Lemma sum_overflows (xs : list Z) (p : Z) :
  Forall (fun q => (0 <= q)%Z) xs -> In p xs -> (FLOAT_OVERFLOW_BOUND <= p)%Z ->
  float_overflows_Z (sum_or_0 xs) = true.
Proof.
  intros Hn Hin Hb. pose proof (sum_or_0_ge xs p Hn Hin). pose proof float_bound_pos.
  unfold float_overflows_Z. apply Z.leb_le. lia.
Qed.

(** A card of the Quoted Price populations (active, Completed or
    Canceled) whose price is out of [float] range makes [build_report]
    raise [OverflowError] (the prices being non-negative, as extracted
    ones are), and an upload extracted to such cards is answered with a
    500 that leaves [_last_workbook] as it was. *)
Theorem price_beyond_float_range_overflows
    (html_parser : list Byte.byte -> res node) (round_mean2 : Q -> Q)
    (cards : list card) (c : card) (p : Z)
    (Hnn : forall c' q, In c' cards -> price c' = Some q -> (0 <= q)%Z)
    (Hin : In c cards) (Hcol : is_active c = true \/ is_won c = true \/ is_lost c = true)
    (Hp : price c = Some p) (Hbig : (FLOAT_OVERFLOW_BOUND <= p)%Z) :
  report_overflows cards = true /\
  build_report_outputs round_mean2 cards = Raise OverflowError /\
  (forall st file now u, upload_truthy file = Some u ->
     extract_cards html_parser (file_bytes u) now = Ok cards ->
     handle html_parser round_mean2 st (PostAnalyze file now) = (st, ServerError)).
Proof.
  assert (Ho : report_overflows cards = true).
  { unfold report_overflows. cbv zeta. apply orb_true_iff. right.
    cbn [existsb]. apply orb_true_iff.
    destruct Hcol as [Ha|[Hw|Hl]].
    - left. apply (sum_overflows _ p); [|apply (in_prices_where _ _ c)|exact Hbig].
      + apply prices_where_nonneg. intros c' q Hc'. apply filter_In in Hc'.
        exact (Hnn c' q (proj1 Hc')).
      + apply filter_In. auto.
      + reflexivity.
      + exact Hp.
    - right. apply orb_true_iff. left.
      apply (sum_overflows _ p); [apply prices_where_nonneg; exact Hnn|
                                  exact (in_prices_where _ _ c p Hin Hw Hp)|exact Hbig].
    - right. apply orb_true_iff. right. apply orb_true_iff. left.
      apply (sum_overflows _ p); [apply prices_where_nonneg; exact Hnn|
                                  exact (in_prices_where _ _ c p Hin Hl Hp)|exact Hbig]. }
  assert (Hb : build_report_outputs round_mean2 cards = Raise OverflowError)
    by (unfold build_report_outputs; rewrite Ho; reflexivity).
  split; [exact Ho|]. split; [exact Hb|].
  intros st file now u Hu He. cbn [handle]. rewrite Hu, He, Hb. reflexivity.
Qed.

Definition card_price_2p1024 : card :=
  mkcard "Scheduled" "Received: 01/02/23" (mkdate 2023 1 2) 10 (Some (2 ^ 1024)%Z).

Lemma price_beyond_float_range_overflows_witness :
  (forall c' q, In c' [card_price_2p1024] -> price c' = Some q -> (0 <= q)%Z) /\
  In card_price_2p1024 [card_price_2p1024] /\
  is_active card_price_2p1024 = true /\
  price card_price_2p1024 = Some (2 ^ 1024)%Z /\
  (FLOAT_OVERFLOW_BOUND <= 2 ^ 1024)%Z /\
  (report_overflows [card_price_2p1024] = true /\
   build_report_outputs (fun q => q) [card_price_2p1024] = Raise OverflowError /\
   (forall st file now u, upload_truthy file = Some u ->
      extract_cards (fun _ => Ok soup_one_card) (file_bytes u) now = Ok [card_price_2p1024] ->
      handle (fun _ => Ok soup_one_card) (fun q => q) st (PostAnalyze file now) = (st, ServerError))).
Proof.
  assert (Hnn : forall c' q, In c' [card_price_2p1024] -> price c' = Some q -> (0 <= q)%Z).
  { intros c' q [<-|[]] H. injection H as <-. apply Z.leb_le. vm_compute. reflexivity. }
  assert (Hb : (FLOAT_OVERFLOW_BOUND <= 2 ^ 1024)%Z) by (apply Z.leb_le; vm_compute; reflexivity).
  split; [exact Hnn|]. split; [left; reflexivity|]. split; [reflexivity|].
  split; [reflexivity|]. split; [exact Hb|].
  apply (price_beyond_float_range_overflows (fun _ => Ok soup_one_card) (fun q => q)
           [card_price_2p1024] card_price_2p1024 (2 ^ 1024)%Z Hnn (or_introl eq_refl)
           (or_introl eq_refl) eq_refl Hb).
Defined.
